(** * fastapi-users-db-opensearch: the OpenSearch user-database adapter

    A shallow embedding of [src/fastapi_users_db_opensearch/__init__.py]
    and the properties of its six operations.

    The adapter talks to a remote document store through the OpenSearch
    client.  The store is not part of the repository; it is modelled as a
    key and query store:
    - two collections of flat documents, which both exist;
    - writes are visible to the reads that follow (every call of the
      adapter is awaited before the next one starts, so the calls are
      sequenced);
    - a search whose body gives no size returns ten hits at most, the
      default of the store (which ten of more matching documents is not
      specified; the properties below do not depend on it);
    - a match on a [.keyword] sub-field is equality of strings;
    - a bulk request moves the parameters of an action out of its
      document; what the parameters then do to the write is not modelled.
    Python exceptions are explicit: every computation yields either a
    value or a raised exception, together with the store it leaves.
    [str.lower] is a parameter. *)

From Stdlib Require Import String Ascii List ZArith Bool Permutation.
From stdpp Require Import gmap strings list fin_maps pretty.

Local Open Scope string_scope.

Set Warnings "-register-all".

(** ** Strings: [str.lower] *)

Definition is_ascii_upper (c : ascii) : bool :=
  let n := nat_of_ascii c in (65 <=? n)%nat && (n <=? 90)%nat.

(** The string has one of the letters [A] to [Z]. *)
Fixpoint has_ascii_upper (s : string) : bool :=
  match s with
  | EmptyString => false
  | String c s' => is_ascii_upper c || has_ascii_upper s'
  end.

(** Python's [str.lower] follows the Unicode case mappings, which are not
    reproduced here: it is a parameter of the adapter, with the two facts
    about it that the properties use.  Lower-casing twice is lower-casing
    once, and a lower-cased string has none of the letters [A] to [Z]. *)
Class Lowercase := {
  lower : string -> string;
  lower_idem : forall s, lower (lower s) = lower s;
  lower_no_ascii_upper : forall s, has_ascii_upper (lower s) = false
}.

(** [str.lower] on strings of ASCII characters, for the concrete runs:
    the letters [A] to [Z] go to [a] to [z], every other byte stays. *)
Definition lower_ascii (c : ascii) : ascii :=
  if is_ascii_upper c then ascii_of_nat (nat_of_ascii c + 32) else c.

Fixpoint ascii_lower (s : string) : string :=
  match s with
  | EmptyString => EmptyString
  | String c s' => String (lower_ascii c) (ascii_lower s')
  end.

Definition ascii_lowercase : Lowercase.
Proof.
  refine {| lower := ascii_lower |}.
  - induction s as [|c s IH]; simpl; [reflexivity|]. rewrite IH. f_equal.
    destruct c as [[] [] [] [] [] [] [] []]; reflexivity.
  - induction s as [|c s IH]; simpl; [reflexivity|]. rewrite IH.
    destruct c as [[] [] [] [] [] [] [] []]; reflexivity.
Defined.

(** ** Values, dictionaries, documents *)

(** The JSON scalars held by the fields of a user or of a linked OAuth
    account.  A UUID is the string of its canonical form. *)
Inductive value :=
  | VNone
  | VBool (b : bool)
  | VInt (z : Z)
  | VStr (s : string).

#[global] Instance value_eq_dec : EqDecision value.
Proof. solve_decision. Defined.

(** Python's [str(v)]. *)
Definition str (v : value) : string :=
  match v with
  | VNone => "None"
  | VBool true => "True"
  | VBool false => "False"
  | VInt z => pretty z
  | VStr s => s
  end.

(** A flat dictionary: the [_source] of a document, or the dictionary of
    one linked OAuth account. *)
Abbreviation doc := (gmap string value).

(** The dictionary of a user record, [user.dict()], and the keyword
    dictionary handed to the constructor [user_db_model]: scalar-valued keys,
    and the list-valued key ["oauth_accounts"] when it is present. *)
Record pydict := Pydict {
  fields : doc;
  oauth_accounts : option (list doc)
}.

(** ** Exceptions and the store monad *)

Inductive exn :=
  | NotFoundError            (* opensearchpy.exceptions.NotFoundError *)
  | KeyError (key : string)
  | AttributeError
  | Exception.               (* the bare [raise Exception] of [create] *)

#[global] Instance exn_eq_dec : EqDecision exn.
Proof. solve_decision. Defined.

Inductive result (A : Type) :=
  | Ok (a : A)
  | Raise (e : exn).
Arguments Ok {A} a.
Arguments Raise {A} e.

(** The two collections the adapter uses: [self.user_index = "user"] and
    [self.oauth_account_index = "oauth_account"]. *)
Inductive index_name := user_index | oauth_account_index.

(** The remote store: per collection, the documents by [_id]. *)
Record cluster := Cluster {
  user_docs : gmap string doc;
  oauth_account_docs : gmap string doc
}.

Definition docs (index : index_name) (st : cluster) : gmap string doc :=
  match index with
  | user_index => user_docs st
  | oauth_account_index => oauth_account_docs st
  end.

Definition set_docs (index : index_name) (m : gmap string doc) (st : cluster) : cluster :=
  match index with
  | user_index => Cluster m (oauth_account_docs st)
  | oauth_account_index => Cluster (user_docs st) m
  end.

(** A computation reads and writes the store and returns or raises; the
    store it leaves is kept in both cases (nothing is rolled back). *)
Definition M (A : Type) : Type := cluster -> result A * cluster.

Definition ret {A} (a : A) : M A := fun st => (Ok a, st).

Definition raise {A} (e : exn) : M A := fun st => (Raise e, st).

Definition bind {A B} (c : M A) (k : A -> M B) : M B :=
  fun st =>
    match c st with
    | (Ok a, st') => k a st'
    | (Raise e, st') => (Raise e, st')
    end.

Notation "x <- c ;; k" := (bind c (fun x => k))
  (at level 100, c at next level, right associativity).
Notation "c ;;; k" := (bind c (fun _ => k))
  (at level 100, right associativity).

(** [try: c  except e: h] *)
Definition try_except {A} (c : M A) (e : exn) (h : M A) : M A :=
  fun st =>
    match c st with
    | (Raise e', st') => if decide (e' = e) then h st' else (Raise e', st')
    | r => r
    end.

Definition lift {A} (r : result A) : M A := fun st => (r, st).

(** ** The document store behind the client *)

(** Query bodies: [{"match": {field: v}}] and
    [{"bool": {"must": [q1, ...]}}]. *)
Inductive query :=
  | Match (field : string) (v : value)
  | Bool_must (qs : list query).

(** ["f.keyword"] names the keyword sub-field of the string field ["f"]. *)
Definition keyword_field (f : string) : option string :=
  let n := String.length f in
  if (8 <=? n)%nat && String.eqb (substring (n - 8) 8 f) ".keyword"
  then Some (substring 0 (n - 8) f)
  else None.

(** A match on a keyword sub-field is exact equality of strings. *)
Fixpoint matches (q : query) (d : doc) : bool :=
  match q with
  | Match f v =>
      match keyword_field f with
      | Some f' =>
          match d !! f', v with
          | Some (VStr a), VStr b => String.eqb a b
          | _, _ => false
          end
      | None => false
      end
  | Bool_must qs => forallb (fun q' => matches q' d) qs
  end.

(** The matching documents of a query: the pairs of [_id] and [_source],
    in the order of the store (no property below depends on that
    order). *)
Definition hits_of (q : query) (m : gmap string doc) : list (string * doc) :=
  filter (fun h => matches q (snd h) = true) (map_to_list m).

(** The number of hits of a search whose body has no ["size"]. *)
Definition default_size : nat := 10.

(** One action of a bulk request: the ["_id"] and ["_index"] keys of the
    action dictionary, and its remaining keys.  (The keys of an account
    come from the field names of a model, which cannot start with an
    underscore, so they never replace these two.) *)
Record action := Action {
  _id : string;
  _index : index_name;
  _source : doc
}.

(** The keys without underscore that [expand_action] of the bulk helper
    takes for parameters of the action. *)
Definition metadata_keys : list string :=
  ["if_seq_no"; "if_primary_term"; "parent"; "pipeline"; "retry_on_conflict";
   "routing"; "version"; "version_type"].

(** The document of an action: its remaining keys, less the parameters. *)
Definition document (a : action) : doc :=
  foldr delete (_source a) metadata_keys.

Module client.

Definition get (index : index_name) (id : string) : M doc :=
  fun st =>
    match docs index st !! id with
    | Some d => (Ok d, st)
    | None => (Raise NotFoundError, st)
    end.

(** [search(index, body)], for a body without ["size"]. *)
Definition search (index : index_name) (body : query) : M (list (string * doc)) :=
  fun st => (Ok (take default_size (hits_of body (docs index st))), st).

(** [index(index, id, body, refresh="wait_for")]: creates or replaces. *)
Definition index (index : index_name) (id : string) (body : doc) : M unit :=
  fun st => (Ok tt, set_docs index (<[id := body]> (docs index st)) st).

(** [update(index, id, body={"doc": partial})]: the fields of [partial]
    are merged into the stored document. *)
Definition update (index : index_name) (id : string) (partial : doc) : M unit :=
  fun st =>
    match docs index st !! id with
    | Some d => (Ok tt, set_docs index (<[id := partial ∪ d]> (docs index st)) st)
    | None => (Raise NotFoundError, st)
    end.

Definition delete_by_query (index : index_name) (body : query) : M unit :=
  fun st =>
    (Ok tt,
     set_docs index
       (filter (fun kd => matches body (snd kd) = false) (docs index st)) st).

Definition delete (index : index_name) (id : string) : M unit :=
  fun st =>
    match docs index st !! id with
    | Some _ => (Ok tt, set_docs index (base.delete id (docs index st)) st)
    | None => (Raise NotFoundError, st)
    end.

End client.

(** [opensearchpy.helpers.async_bulk]: the documents of the actions are
    indexed in order. *)
Fixpoint async_bulk (actions : list action) : M unit :=
  match actions with
  | [] => ret tt
  | a :: actions' =>
      client.index (_index a) (_id a) (document a) ;;;
      async_bulk actions'
  end.

(** ** The user model

    The adapter is generic in the record type [UD] of the framework: it
    only reads [user.id], [user.email] and [user.dict()], and builds
    records with the constructor [user_db_model] it was given.  The two
    laws say that the dictionary of a record holds its [id] and [email]
    attributes under the keys of these names. *)
Module User.

Class Model (UD : Type) := {
  id : UD -> string;
  email : UD -> string;
  dict : UD -> pydict;
  user_db_model : pydict -> UD;
  dict_id : forall user, fields (dict user) !! "id" = Some (VStr (id user));
  dict_email : forall user, fields (dict user) !! "email" = Some (VStr (email user))
}.

End User.

(** ** The adapter *)

(** The loop that [create] and [update] both run over the popped
    ["oauth_accounts"] list: each account loses its ["id"] key, which
    becomes the [_id] of its document, and gains the back-reference
    ["user_id"]; a key of the account itself wins over it, as in
    [{"user_id": user.id, **oauth_account}]. *)
Fixpoint values_of_oauth_accounts (user_id : string) (oauth_accounts : list doc)
  : result (list action) :=
  match oauth_accounts with
  | [] => Ok []
  | oauth_account :: rest =>
      match oauth_account !! "id" with
      | None => Raise (KeyError "id")
      | Some v =>
          let oauth_account_id := str v in
          let oauth_account := delete "id" oauth_account in
          match values_of_oauth_accounts user_id rest with
          | Ok values =>
              Ok (Action oauth_account_id oauth_account_index
                    (oauth_account ∪ {[ "user_id" := VStr user_id ]}) :: values)
          | Raise e => Raise e
          end
      end
  end.

Module OpenSearchUserDatabase.
Section adapter.

Context {UD : Type} `{!User.Model UD} `{!Lowercase}.

(** [{"id": a["_id"], **a["_source"]}] *)
Definition oauth_account_of_hit (a : string * doc) : doc :=
  snd a ∪ {[ "id" := VStr (fst a) ]}.

Definition _make_user (user : doc) : M UD :=
  user_id <- match user !! "id" with
             | Some v => ret v
             | None => raise (KeyError "id")
             end ;;
  oauth_accounts <-
    client.search oauth_account_index (Match "user_id.keyword" user_id) ;;
  let user_dict :=
    match oauth_accounts with
    | [] => Pydict user None
    | _ :: _ => Pydict user (Some (map oauth_account_of_hit oauth_accounts))
    end in
  ret (User.user_db_model user_dict).

(** The [except] clause covers the [client.get] call only. *)
Definition get (id : string) : M (option UD) :=
  response <-
    try_except (r <- client.get user_index id ;; ret (Some r))
               NotFoundError (ret None) ;;
  match response with
  | None => ret None
  | Some user =>
      let user := <[ "id" := VStr id ]> user in
      u <- _make_user user ;; ret (Some u)
  end.

Definition get_by_email (email : string) : M (option UD) :=
  hits <- client.search user_index (Match "email.keyword" (VStr (lower email))) ;;
  match hits with
  | [] => ret None
  | hit :: _ =>
      let user := <[ "id" := VStr (fst hit) ]> (snd hit) in
      u <- _make_user user ;; ret (Some u)
  end.

(** The ["user_id"] of the hit goes to [get] as the string the client
    puts in the request path. *)
Definition get_by_oauth_account (oauth account_id : string) : M (option UD) :=
  hits <- client.search oauth_account_index
            (Bool_must [Match "oauth_name.keyword" (VStr oauth);
                        Match "account_id.keyword" (VStr account_id)]) ;;
  match hits with
  | [] => ret None
  | hit :: _ =>
      match snd hit !! "user_id" with
      | None => raise (KeyError "user_id")
      | Some user_id => get (str user_id)
      end
  end.

(** [user.dict()] is a fresh dictionary: popping its keys leaves the
    record [user], which is returned, as it was. *)
Definition create (user : UD) : M UD :=
  let user_dict := User.dict user in
  oauth_accounts_values <-
    match oauth_accounts user_dict with
    | Some oauth_accounts =>
        values <- lift (values_of_oauth_accounts (User.id user) oauth_accounts) ;;
        ret (Some values)
    | None => ret None
    end ;;
  let user_dict := fields user_dict in
  existing <- get_by_email (lower (User.email user)) ;;
  if existing is Some _ then raise Exception else
  email <- match user_dict !! "email" with
           | Some (VStr e) => ret (lower e)
           | Some _ => raise AttributeError
           | None => raise (KeyError "email")
           end ;;
  let user_dict := <[ "email" := VStr email ]> user_dict in
  user_id <- match user_dict !! "id" with
             | Some v => ret v
             | None => raise (KeyError "id")
             end ;;
  let user_dict := base.delete "id" user_dict in
  client.index user_index (str user_id) user_dict ;;;
  match oauth_accounts_values with
  | Some values => async_bulk values
  | None => ret tt
  end ;;;
  ret user.

Definition update (user : UD) : M UD :=
  let user_dict := User.dict user in
  match oauth_accounts user_dict with
  | Some oauth_accounts =>
      client.delete_by_query oauth_account_index
        (Match "user_id.keyword" (VStr (User.id user))) ;;;
      values <- lift (values_of_oauth_accounts (User.id user) oauth_accounts) ;;
      async_bulk values
  | None => ret tt
  end ;;;
  let user_dict := fields user_dict in
  user_id <- match user_dict !! "id" with
             | Some v => ret v
             | None => raise (KeyError "id")
             end ;;
  let user_dict := base.delete "id" user_dict in
  client.update user_index (str user_id) user_dict ;;;
  ret user.

Definition delete (user : UD) : M unit :=
  client.delete user_index (User.id user).

End adapter.
End OpenSearchUserDatabase.

(** * Auxiliary definitions

    The notions in which the properties are stated. *)

Module DB := OpenSearchUserDatabase.

(** The collection after a bulk request. *)
Definition bulk_docs (values : list action) (m : gmap string doc) : gmap string doc :=
  foldl (fun m a => <[_id a := document a]> m) m values.

(** The action the loop builds for one account that has an ["id"]. *)
Definition value_of (user_id : string) (oauth_account : doc) : action :=
  Action (str (default VNone (oauth_account !! "id"))) oauth_account_index
         (delete "id" oauth_account ∪ {[ "user_id" := VStr user_id ]}).

(** The keyword dictionary [_make_user] builds from the raw document and
    the hits of its search. *)
Definition made (user : doc) (hits : list (string * doc)) : pydict :=
  match hits with
  | [] => Pydict user None
  | _ :: _ => Pydict user (Some (map DB.oauth_account_of_hit hits))
  end.

(** The query of [_make_user] and of the delete of [update]. *)
Definition linked_to (user_id : string) : query :=
  Match "user_id.keyword" (VStr user_id).

(** The query of [get_by_email], once the address is lower-cased. *)
Definition with_email (email : string) : query :=
  Match "email.keyword" (VStr email).

(** The linked-account documents that [_make_user] gets to see. *)
Definition linked_hits (user_id : string) (m : gmap string doc) : list (string * doc) :=
  take default_size (hits_of (linked_to user_id) m).

(** The document [create] writes for a user. *)
Definition created_doc `{!Lowercase} (email : string) (user_dict : doc) : doc :=
  delete "id" (<[ "email" := VStr (lower email) ]> user_dict).

(** The linked-account documents that the delete-by-query of [update]
    leaves: those that do not refer to the user. *)
Definition unlinked (user_id : string) (m : gmap string doc) : gmap string doc :=
  filter (fun kd => matches (linked_to user_id) (snd kd) = false) m.

(** The linked accounts a dictionary carries; none when the key is absent. *)
Definition accounts (d : pydict) : list doc := default [] (oauth_accounts d).

(** The identifier of an account, as [str(oauth_account.pop("id"))]. *)
Definition account_id (a : doc) : string := str (default VNone (a !! "id")).

(** An account as the framework types it: its ["id"] is a UUID, and it has
    no field named ["user_id"], the key under which the adapter stores the
    back-reference to the owner. *)
Definition well_formed_account (a : doc) : bool :=
  match a !! "id", a !! "user_id" with
  | Some (VStr _), None => true
  | _, _ => false
  end.

Fixpoint distinct (l : list string) : bool :=
  match l with
  | [] => true
  | x :: l' => negb (existsb (String.eqb x) l') && distinct l'
  end.

(** A set of linked accounts: well-typed accounts with pairwise distinct
    identifiers. *)
Definition well_formed (l : list doc) : bool :=
  forallb well_formed_account l && distinct (map account_id l).

(** No key of the account is a parameter of the bulk helper. *)
Definition plain_account (a : doc) : bool :=
  forallb (fun k => match a !! k with None => true | Some _ => false end) metadata_keys.

Definition plain (l : list doc) : bool := forallb plain_account l.

(** An account as [get] returns it: with the back-reference to its owner. *)
Definition linked (user_id : string) (a : doc) : doc :=
  <[ "user_id" := VStr user_id ]> a.

(** No linked-account document of the collection refers to the user. *)
Definition no_link_to (user_id : string) (m : gmap string doc) : Prop :=
  forall k a, m !! k = Some a -> a !! "user_id" <> Some (VStr user_id).

(** The query of [get_by_oauth_account]. *)
Definition account_query (oauth account_id : string) : query :=
  Bool_must [Match "oauth_name.keyword" (VStr oauth);
             Match "account_id.keyword" (VStr account_id)].

(** No address held by a user document has one of the letters [A] to
    [Z]. *)
Definition lowercase_emails (m : gmap string doc) : Prop :=
  forall k d e, m !! k = Some d -> d !! "email" = Some (VStr e) -> has_ascii_upper e = false.

(** The same, as a check to run on a given collection. *)
Definition lowercase_emailsb (m : gmap string doc) : bool :=
  forallb (fun kd => match snd kd !! "email" with
                     | Some (VStr e) => negb (has_ascii_upper e)
                     | _ => true
                     end) (map_to_list m).

(** Every address held by a user document is its own lower-casing. *)
Definition normalized_emails `{!Lowercase} (m : gmap string doc) : Prop :=
  forall k d e, m !! k = Some d -> d !! "email" = Some (VStr e) -> lower e = e.

(** The same, as a check to run on a given collection. *)
Definition normalized_emailsb `{!Lowercase} (m : gmap string doc) : bool :=
  forallb (fun kd => match snd kd !! "email" with
                     | Some (VStr e) => String.eqb (lower e) e
                     | _ => true
                     end) (map_to_list m).

(** No two user documents hold the same address. *)
Definition unique_emails (m : gmap string doc) : Prop :=
  forall k1 k2 d1 d2 e,
    m !! k1 = Some d1 -> m !! k2 = Some d2 ->
    d1 !! "email" = Some (VStr e) -> d2 !! "email" = Some (VStr e) -> k1 = k2.

(** Every account of the list has the key ["id"] the loop pops. *)
Definition accounts_have_id (l : list doc) : bool :=
  forallb (fun a => match a !! "id" with Some _ => true | None => false end) l.

Section statements.

Context {UD : Type} `{!User.Model UD} `{!Lowercase}.

(** The last step of [update]: the partial update of the user document. *)
Definition update_document (user : UD) (st : cluster) : result UD * cluster :=
  match user_docs st !! User.id user with
  | Some d =>
      (Ok user,
       Cluster (<[ User.id user := delete "id" (fields (User.dict user)) ∪ d ]>
                  (user_docs st))
               (oauth_account_docs st))
  | None => (Raise NotFoundError, st)
  end.

(** The round trip of [create] and [get], as a property of a record and of
    the store it is created in: when [create] returns, [get] of the
    record's id returns a record built from the fields of the dictionary
    of [user], the address lower-cased, and from exactly the linked
    accounts of [user], in some order (each with its back-reference). *)
Definition create_get_roundtrip (user : UD) (st : cluster) : Prop :=
  forall r st', DB.create user st = (Ok r, st') ->
  exists kw,
    DB.get (User.id user) st' = (Ok (Some (User.user_db_model kw)), st') /\
    fields kw = <[ "email" := VStr (lower (User.email user)) ]> (fields (User.dict user)) /\
    accounts kw ≡ₚ map (linked (User.id user)) (accounts (User.dict user)).


(** The absence of the field in the record that [get] returns, as a
    property of the store and of an id: when no linked-account document
    refers to the id, a record that [get] returns has no field
    ["oauth_accounts"]. *)
Definition get_omits_linked_accounts (st : cluster) (id : string) : Prop :=
  no_link_to id (oauth_account_docs st) ->
  forall r : UD, DB.get id st = (Ok (Some r), st) ->
  oauth_accounts (User.dict r) = None.

(** The same after [update] of a stored user whose list of linked accounts
    is present and empty. *)
Definition update_empty_omits_linked_accounts (user : UD) (st : cluster) : Prop :=
  oauth_accounts (User.dict user) = Some [] ->
  forall d, user_docs st !! User.id user = Some d ->
  exists r : UD,
    DB.get (User.id user) (snd (DB.update user st))
    = (Ok (Some r), snd (DB.update user st)) /\
    oauth_accounts (User.dict r) = None.

End statements.

(** * An example model, for concrete runs *)

(** A record after the mixin of the framework for linked accounts, whose
    field [oauth_accounts] is a list with the empty list for default: the
    constructor fills the field in when its key is not given. *)
Record OAuthUserDB := {
  o_id : string;
  o_email : string;
  o_extra : doc;
  o_oauth_accounts : list doc
}.

#[global, refine] Instance OAuthUserDB_model : User.Model OAuthUserDB := {|
  User.id := o_id;
  User.email := o_email;
  User.dict u :=
    Pydict (<[ "id" := VStr (o_id u) ]> (<[ "email" := VStr (o_email u) ]> (o_extra u)))
           (Some (o_oauth_accounts u));
  User.user_db_model kw :=
    {| o_id := str (default VNone (fields kw !! "id"));
       o_email := str (default VNone (fields kw !! "email"));
       o_extra := delete "id" (delete "email" (fields kw));
       o_oauth_accounts := default [] (oauth_accounts kw) |}
|}.
Proof.
  - intros u. simpl. apply lookup_insert_eq.
  - intros u. simpl. rewrite lookup_insert_ne by discriminate. apply lookup_insert_eq.
Defined.

(** A record with the two attributes the adapter reads, further scalar
    fields, and the optional list of linked accounts. *)
Record UserDB := {
  db_id : string;
  db_email : string;
  db_extra : doc;
  db_oauth_accounts : option (list doc)
}.

#[global, refine] Instance UserDB_model : User.Model UserDB := {|
  User.id := db_id;
  User.email := db_email;
  User.dict u :=
    Pydict (<[ "id" := VStr (db_id u) ]> (<[ "email" := VStr (db_email u) ]> (db_extra u)))
           (db_oauth_accounts u);
  User.user_db_model kw :=
    {| db_id := str (default VNone (fields kw !! "id"));
       db_email := str (default VNone (fields kw !! "email"));
       db_extra := delete "id" (delete "email" (fields kw));
       db_oauth_accounts := oauth_accounts kw |}
|}.
Proof.
  - intros u. simpl. apply lookup_insert_eq.
  - intros u. simpl. rewrite lookup_insert_ne by discriminate. apply lookup_insert_eq.
Defined.

Module Example.

(** The runs are on ASCII strings. *)
#[local] Existing Instance ascii_lowercase.

Definition empty : cluster := Cluster ∅ ∅.

Definition google : doc :=
  {[ "id" := VStr "o1"; "oauth_name" := VStr "google"; "account_id" := VStr "100" ]}.

Definition github : doc :=
  {[ "id" := VStr "o2"; "oauth_name" := VStr "github"; "account_id" := VStr "200" ]}.

Definition gitlab : doc :=
  {[ "id" := VStr "o3"; "oauth_name" := VStr "gitlab"; "account_id" := VStr "300" ]}.

Definition extra : doc := {[ "hashed_password" := VStr "h"; "is_active" := VBool true ]}.

(** A user with two linked accounts and a mixed-case address. *)
Definition alice : UserDB :=
  {| db_id := "u1"; db_email := "A@B.com"; db_extra := extra;
     db_oauth_accounts := Some [google; github] |}.

(** The same user with one other linked account. *)
Definition alice_gitlab : UserDB :=
  {| db_id := "u1"; db_email := "A@B.com"; db_extra := extra;
     db_oauth_accounts := Some [gitlab] |}.

(** The same user with the list of linked accounts emptied. *)
Definition alice_unlinked : UserDB :=
  {| db_id := "u1"; db_email := "A@B.com"; db_extra := extra;
     db_oauth_accounts := Some [] |}.

(** A second account with the identifier of [google]. *)
Definition github_o1 : doc :=
  {[ "id" := VStr "o1"; "oauth_name" := VStr "github"; "account_id" := VStr "200" ]}.

(** The same user with two linked accounts that share one identifier. *)
Definition alice_shared : UserDB :=
  {| db_id := "u1"; db_email := "A@B.com"; db_extra := extra;
     db_oauth_accounts := Some [google; github_o1] |}.

(** A user of a model without linked accounts. *)
Definition bob : UserDB :=
  {| db_id := "u2"; db_email := "bob@b.com"; db_extra := extra;
     db_oauth_accounts := None |}.

(** A second user whose address is Alice's up to letter case. *)
Definition mallory : UserDB :=
  {| db_id := "u3"; db_email := "a@b.com"; db_extra := extra;
     db_oauth_accounts := None |}.

(** The store after [create(alice)] on the empty store. *)
Definition st_alice : cluster := snd (DB.create alice empty).

(** The store after [create(bob)] on the empty store. *)
Definition st_bob : cluster := snd (DB.create bob empty).

(** The store after [create(alice)], [delete(alice)]: the user document
    is gone, the two linked-account documents remain. *)
Definition st_deleted : cluster := snd (DB.delete alice st_alice).

(** A record with Alice's id and another address, without linked
    accounts. *)
Definition alice_moved : UserDB :=
  {| db_id := "u1"; db_email := "New@B.com"; db_extra := ∅;
     db_oauth_accounts := None |}.

(** Bob's record with the address under which Alice is stored. *)
Definition bob_renamed : UserDB :=
  {| db_id := "u2"; db_email := "a@b.com"; db_extra := extra;
     db_oauth_accounts := None |}.

(** The store after [create(alice)], [create(bob)]. *)
Definition st_both : cluster := snd (DB.create bob st_alice).

(** A third user, with one linked account. *)
Definition carol : UserDB :=
  {| db_id := "u4"; db_email := "carol@b.com"; db_extra := extra;
     db_oauth_accounts := Some [gitlab] |}.

(** The store after [create(alice)], [create(carol)]. *)
Definition st_two : cluster := snd (DB.create carol st_alice).

(** Eleven linked accounts with different identifiers. *)
Definition account_n (n : nat) : doc :=
  {[ "id" := VStr ("a" +:+ pretty n); "oauth_name" := VStr "google";
     "account_id" := VStr (pretty n) ]}.

Definition eleven : list doc := map account_n (seq 1 11).


(** A user of the model with the defaulting field, without linked
    accounts. *)
Definition dan : OAuthUserDB :=
  {| o_id := "u5"; o_email := "dan@b.com"; o_extra := extra;
     o_oauth_accounts := [] |}.

(** The store after [create(dan)] on the empty store. *)
Definition st_dan : cluster := snd (DB.create dan empty).

(** The store after [create(alice)], [update(alice)]: the update wrote the
    address ["A@B.com"] as it is. *)
Definition st_updated : cluster := snd (DB.update alice st_alice).

End Example.

(** * Properties *)

(** ** Lower-casing *)

(** A string that lower-casing changes is the lower-casing of nothing. *)
Lemma changed_not_lower `{!Lowercase} s s' : lower s <> s -> s <> lower s'.
Proof. intros Hch ->. apply Hch, lower_idem. Qed.

(** ** Queries and hits *)

Lemma matches_keyword f f' s d :
  keyword_field f = Some f' ->
  matches (Match f (VStr s)) d = true <-> d !! f' = Some (VStr s).
Proof.
  intros Hf. simpl. rewrite Hf.
  destruct (d !! f') as [[| | |a]|]; try (split; [discriminate|congruence]).
  rewrite String.eqb_eq. split; congruence.
Qed.

Lemma matches_user_id s d :
  matches (Match "user_id.keyword" (VStr s)) d = true <->
  d !! "user_id" = Some (VStr s).
Proof. now apply matches_keyword. Qed.

Lemma matches_email s d :
  matches (Match "email.keyword" (VStr s)) d = true <->
  d !! "email" = Some (VStr s).
Proof. now apply matches_keyword. Qed.

Lemma elem_of_hits_of q m k d :
  (k, d) ∈ hits_of q m <-> m !! k = Some d /\ matches q d = true.
Proof.
  unfold hits_of. rewrite list_elem_of_filter, elem_of_map_to_list.
  simpl. tauto.
Qed.

Lemma NoDup_hits_of q m : NoDup (hits_of q m).
Proof. unfold hits_of. apply NoDup_filter, NoDup_map_to_list. Qed.

Lemma hits_of_nil q m :
  hits_of q m = [] <-> forall k d, m !! k = Some d -> matches q d = false.
Proof.
  split.
  - intros Hnil k d Hk. destruct (matches q d) eqn:Hm; [|reflexivity].
    assert (Hin : (k, d) ∈ hits_of q m) by now apply elem_of_hits_of.
    rewrite Hnil in Hin. now apply not_elem_of_nil in Hin.
  - intros Hno. destruct (hits_of q m) as [|[k d] l] eqn:Hh; [reflexivity|].
    assert (Hin : (k, d) ∈ hits_of q m) by (rewrite Hh; left).
    apply elem_of_hits_of in Hin as [Hk Hm].
    rewrite (Hno _ _ Hk) in Hm. discriminate.
Qed.

(** When one document only matches, it is the one hit. *)
Lemma hits_of_unique q m k d :
  m !! k = Some d -> matches q d = true ->
  (forall k' d', m !! k' = Some d' -> matches q d' = true -> k' = k) ->
  hits_of q m = [(k, d)].
Proof.
  intros Hk Hm Huniq.
  assert (Hall : forall h, h ∈ hits_of q m -> h = (k, d)).
  { intros [k' d'] Hin. apply elem_of_hits_of in Hin as [Hk' Hm'].
    assert (k' = k) as -> by eauto. congruence. }
  assert (Hin : (k, d) ∈ hits_of q m) by now apply elem_of_hits_of.
  pose proof (NoDup_hits_of q m) as Hnd.
  destruct (hits_of q m) as [|h1 [|h2 l]].
  - now apply not_elem_of_nil in Hin.
  - f_equal. apply Hall. left.
  - exfalso. apply NoDup_cons in Hnd as [Hnot _]. apply Hnot.
    rewrite (Hall h1), (Hall h2); [left | right; left | left].
Qed.

(** ** The store after a bulk request *)

(** The document of an action keeps every key that is no parameter. *)
Lemma document_lookup a k :
  k ∉ metadata_keys -> document a !! k = _source a !! k.
Proof.
  unfold document. generalize metadata_keys as keys.
  induction keys as [|k' keys IH]; intros Hk; [reflexivity|].
  apply not_elem_of_cons in Hk as [Hne Hk]. simpl.
  rewrite lookup_delete_ne by congruence. auto.
Qed.

Lemma document_lookup_metadata a k :
  k ∈ metadata_keys -> document a !! k = None.
Proof.
  unfold document. generalize metadata_keys as keys.
  induction keys as [|k' keys IH]; intros Hk; [now apply not_elem_of_nil in Hk|].
  simpl. destruct (decide (k = k')) as [->|Hne]; [apply lookup_delete_eq|].
  rewrite lookup_delete_ne by congruence.
  apply elem_of_cons in Hk as [?|Hk]; [contradiction | auto].
Qed.

(** Without parameters among its keys, the document is all of them. *)
Lemma document_plain a :
  (forall k, k ∈ metadata_keys -> _source a !! k = None) -> document a = _source a.
Proof.
  intros Hplain. apply map_eq. intros k.
  destruct (decide (k ∈ metadata_keys)) as [Hin|Hout].
  - now rewrite document_lookup_metadata, Hplain.
  - now apply document_lookup.
Qed.

Lemma async_bulk_run values st :
  Forall (fun a => _index a = oauth_account_index) values ->
  async_bulk values st =
  (Ok tt, Cluster (user_docs st) (bulk_docs values (oauth_account_docs st))).
Proof.
  intros Hall. revert st.
  induction Hall as [|a values Ha _ IH]; intros st.
  - now destruct st.
  - simpl. unfold bind, client.index. rewrite Ha. simpl. now rewrite IH.
Qed.

Lemma bulk_docs_lookup_notin values m k :
  k ∉ map _id values -> bulk_docs values m !! k = m !! k.
Proof.
  revert m. induction values as [|a values IH]; intros m Hk; [reflexivity|].
  simpl in *. apply not_elem_of_cons in Hk as [Hne Hk].
  rewrite IH by assumption. now apply lookup_insert_ne.
Qed.

Lemma bulk_docs_lookup_in values m a :
  NoDup (map _id values) -> a ∈ values ->
  bulk_docs values m !! _id a = Some (document a).
Proof.
  revert m. induction values as [|b values IH]; intros m Hnd Hin.
  - now apply not_elem_of_nil in Hin.
  - simpl in *. apply NoDup_cons in Hnd as [Hnot Hnd].
    apply elem_of_cons in Hin as [->|Hin].
    + rewrite bulk_docs_lookup_notin by assumption. apply lookup_insert_eq.
    + now apply IH.
Qed.

(** ** The documents written for the linked accounts *)

Lemma values_of_oauth_accounts_inv user_id l values :
  values_of_oauth_accounts user_id l = Ok values ->
  Forall (fun a => is_Some (a !! "id")) l /\ values = map (value_of user_id) l.
Proof.
  revert values. induction l as [|a l IH]; simpl; intros values Hv.
  - injection Hv as <-. now split.
  - destruct (a !! "id") as [v|] eqn:Hid; [|discriminate].
    destruct (values_of_oauth_accounts user_id l) as [vs|e]; [|discriminate].
    injection Hv as <-. destruct (IH vs eq_refl) as [Hall ->].
    split; [constructor; eauto|].
    unfold value_of at 2. now rewrite Hid.
Qed.

Lemma values_of_oauth_accounts_ok user_id l :
  Forall (fun a => is_Some (a !! "id")) l ->
  values_of_oauth_accounts user_id l = Ok (map (value_of user_id) l).
Proof.
  induction 1 as [|a l [v Hid] _ IH]; simpl; [reflexivity|].
  rewrite Hid, IH. unfold value_of at 2. now rewrite Hid.
Qed.

Lemma value_of_index user_id l :
  Forall (fun a => _index a = oauth_account_index) (map (value_of user_id) l).
Proof. induction l; constructor; auto. Qed.

(** ** What each operation computes *)

Section runs.

Context {UD : Type} `{!User.Model UD} `{!Lowercase}.

Lemma _make_user_run (user : doc) v st :
  user !! "id" = Some v ->
  DB._make_user user st =
  (Ok (User.user_db_model
         (made user (take default_size
                       (hits_of (Match "user_id.keyword" v) (oauth_account_docs st))))),
   st).
Proof.
  intros Hid. unfold DB._make_user, bind, ret, client.search. rewrite Hid.
  cbn [docs]. now destruct (take default_size _).
Qed.

(** The first hit of a search is the first matching document. *)
Lemma search_first q m :
  take default_size (hits_of q m) =
  match hits_of q m with
  | [] => []
  | hit :: hits => hit :: take (pred default_size) hits
  end.
Proof. now destruct (hits_of q m). Qed.

(** In the model of the store, the lookups by id and by address never
    raise and leave the store as it is. *)
Lemma get_run id st :
  DB.get id st =
  (Ok (match user_docs st !! id with
       | None => None
       | Some d =>
           Some (User.user_db_model
                   (made (<[ "id" := VStr id ]> d)
                         (linked_hits id (oauth_account_docs st))))
       end), st).
Proof.
  unfold DB.get, bind, try_except, client.get, ret. cbn [docs].
  destruct (user_docs st !! id) as [d|]; cbn [decide]; [|reflexivity].
  rewrite (_make_user_run _ (VStr id)) by apply lookup_insert_eq.
  reflexivity.
Qed.

Lemma get_by_email_run email st :
  DB.get_by_email email st =
  (Ok (match hits_of (with_email (lower email)) (user_docs st) with
       | [] => None
       | hit :: _ =>
           Some (User.user_db_model
                   (made (<[ "id" := VStr (fst hit) ]> (snd hit))
                         (linked_hits (fst hit) (oauth_account_docs st))))
       end), st).
Proof.
  unfold DB.get_by_email, bind, client.search, ret. cbn [docs].
  fold (with_email (lower email)). rewrite search_first.
  destruct (hits_of _ _) as [|hit hits]; [reflexivity|].
  rewrite (_make_user_run _ (VStr hit.1)) by apply lookup_insert_eq.
  reflexivity.
Qed.

(** [create], step by step: the loop may raise, then the duplicate check
    may raise, then the two writes happen. *)
Lemma create_run user st :
  DB.create user st =
  match
    match oauth_accounts (User.dict user) with
    | Some l =>
        match values_of_oauth_accounts (User.id user) l with
        | Ok values => Ok (Some values)
        | Raise e => Raise e
        end
    | None => Ok None
    end
  with
  | Raise e => (Raise e, st)
  | Ok values =>
      match hits_of (with_email (lower (User.email user))) (user_docs st) with
      | _ :: _ => (Raise Exception, st)
      | [] =>
          (Ok user,
           Cluster
             (<[ User.id user :=
                   created_doc (User.email user) (fields (User.dict user)) ]>
                (user_docs st))
             (match values with
              | Some values => bulk_docs values (oauth_account_docs st)
              | None => oauth_account_docs st
              end))
      end
  end.
Proof.
  unfold DB.create.
  set (loop := match oauth_accounts (User.dict user) with
               | Some l => _ | None => _ end).
  assert (Hloop : forall st0, loop st0 =
    (match oauth_accounts (User.dict user) with
     | Some l =>
         match values_of_oauth_accounts (User.id user) l with
         | Ok values => Ok (Some values)
         | Raise e => Raise e
         end
     | None => Ok None
     end, st0)).
  { intros st0. subst loop. destruct (oauth_accounts (User.dict user)) as [l|];
      [|reflexivity].
    unfold bind, lift, ret. now destruct (values_of_oauth_accounts _ l). }
  unfold bind at 1. rewrite Hloop. clear Hloop loop.
  destruct (oauth_accounts (User.dict user)) as [l|] eqn:Hl.
  - destruct (values_of_oauth_accounts (User.id user) l) as [values|e] eqn:Hv;
      [|reflexivity].
    unfold bind at 1. rewrite get_by_email_run, lower_idem.
    destruct (hits_of _ (user_docs st)) as [|hit hits]; [|reflexivity].
    unfold bind, ret, raise, client.index.
    rewrite User.dict_email. simpl.
    rewrite lookup_insert_ne by discriminate. rewrite User.dict_id. simpl.
    apply values_of_oauth_accounts_inv in Hv as [_ ->].
    now rewrite async_bulk_run by apply value_of_index.
  - unfold bind at 1. rewrite get_by_email_run, lower_idem.
    destruct (hits_of _ (user_docs st)) as [|hit hits]; [|reflexivity].
    unfold bind, ret, raise, client.index.
    rewrite User.dict_email. simpl.
    rewrite lookup_insert_ne by discriminate. rewrite User.dict_id. simpl.
    now destruct st.
Qed.

Lemma update_run user st :
  DB.update user st =
  match oauth_accounts (User.dict user) with
  | Some l =>
      let st1 := Cluster (user_docs st) (unlinked (User.id user) (oauth_account_docs st)) in
      match values_of_oauth_accounts (User.id user) l with
      | Raise e => (Raise e, st1)
      | Ok values =>
          update_document user
            (Cluster (user_docs st)
               (bulk_docs values (unlinked (User.id user) (oauth_account_docs st))))
      end
  | None => update_document user st
  end.
Proof.
  assert (Hlast : forall st2,
    (user_id <- match fields (User.dict user) !! "id" with
                | Some v => ret v
                | None => raise (KeyError "id")
                end ;;
     client.update user_index (str user_id)
       (base.delete "id" (fields (User.dict user))) ;;;
     ret user) st2 = update_document user st2).
  { intros st2. unfold bind, ret, client.update, update_document.
    rewrite User.dict_id. simpl.
    now destruct (user_docs st2 !! User.id user). }
  unfold DB.update. unfold bind at 1.
  destruct (oauth_accounts (User.dict user)) as [l|].
  - unfold bind at 1. unfold client.delete_by_query at 1. simpl.
    fold (linked_to (User.id user)). fold (unlinked (User.id user) (oauth_account_docs st)).
    unfold bind at 1. unfold lift at 1.
    destruct (values_of_oauth_accounts (User.id user) l) as [values|e] eqn:Hv;
      [|reflexivity].
    pose proof Hv as Hv'. apply values_of_oauth_accounts_inv in Hv' as [_ ->].
    rewrite async_bulk_run by apply value_of_index. simpl.
    apply Hlast.
  - unfold ret at 1. apply Hlast.
Qed.

Lemma delete_run user st :
  DB.delete user st =
  match user_docs st !! User.id user with
  | Some _ =>
      (Ok tt, Cluster (delete (User.id user) (user_docs st)) (oauth_account_docs st))
  | None => (Raise NotFoundError, st)
  end.
Proof. reflexivity. Qed.

End runs.

(** ** Linked accounts of a record *)

Lemma distinct_NoDup l : distinct l = true -> NoDup l.
Proof.
  induction l as [|x l IH]; simpl; intros Hd; [constructor|].
  apply andb_true_iff in Hd as [Hx Hd]. constructor; [|auto].
  intros Hin. apply negb_true_iff in Hx.
  assert (Hex : existsb (String.eqb x) l = true).
  { apply existsb_exists. exists x. split; [now apply list_elem_of_In|].
    apply String.eqb_refl. }
  congruence.
Qed.

Lemma well_formed_Forall l :
  well_formed l = true -> Forall (fun a => well_formed_account a = true) l.
Proof.
  unfold well_formed. intros Hwf. apply andb_true_iff in Hwf as [Hall _].
  apply Forall_forall. intros a Hin.
  rewrite forallb_forall in Hall. now apply Hall, list_elem_of_In.
Qed.

Lemma well_formed_account_inv a :
  well_formed_account a = true ->
  a !! "id" = Some (VStr (account_id a)) /\ a !! "user_id" = None.
Proof.
  unfold well_formed_account, account_id.
  destruct (a !! "id") as [[| | |s]|]; try discriminate.
  now destruct (a !! "user_id").
Qed.


Lemma value_of_ids user_id l : map _id (map (value_of user_id) l) = map account_id l.
Proof. rewrite map_map. reflexivity. Qed.

Ltac not_metadata :=
  let Hin := fresh in
  unfold metadata_keys; intros Hin;
  repeat (apply elem_of_cons in Hin as [Hin|Hin]; [discriminate Hin|]);
  now apply not_elem_of_nil in Hin.

Lemma plain_account_inv a k :
  plain_account a = true -> k ∈ metadata_keys -> a !! k = None.
Proof.
  unfold plain_account. rewrite forallb_forall. intros Hall Hk.
  apply list_elem_of_In, Hall in Hk. now destruct (a !! k).
Qed.

Lemma plain_Forall l : plain l = true -> Forall (fun a => plain_account a = true) l.
Proof.
  unfold plain. rewrite forallb_forall. intros Hall.
  apply Forall_forall. intros a Ha. now apply Hall, list_elem_of_In.
Qed.

(** The document of a well-formed account refers to the user. *)
Lemma value_of_linked user_id a :
  well_formed_account a = true ->
  document (value_of user_id a) !! "user_id" = Some (VStr user_id).
Proof.
  intros Ha. apply well_formed_account_inv in Ha as [_ Hno].
  rewrite document_lookup by not_metadata. simpl.
  rewrite lookup_union_r by (rewrite lookup_delete_ne by discriminate; exact Hno).
  apply lookup_singleton_eq.
Qed.

(** The document of an account without parameters is all of its action. *)
Lemma value_of_plain user_id a :
  plain_account a = true ->
  document (value_of user_id a) = _source (value_of user_id a).
Proof.
  intros Hplain. apply document_plain. intros k Hk. simpl.
  assert (Hid : k <> "id") by (intros ->; revert Hk; not_metadata).
  assert (Hu : k <> "user_id") by (intros ->; revert Hk; not_metadata).
  rewrite lookup_union, lookup_delete_ne, lookup_singleton_ne by congruence.
  now rewrite (plain_account_inv _ _ Hplain Hk).
Qed.

(** Read back, the document of a well-formed account without parameters
    is the account with the back-reference. *)
Lemma oauth_account_of_value user_id a :
  well_formed_account a = true ->
  plain_account a = true ->
  DB.oauth_account_of_hit (_id (value_of user_id a), document (value_of user_id a))
  = linked user_id a.
Proof.
  intros Ha Hplain. rewrite (value_of_plain _ _ Hplain).
  apply well_formed_account_inv in Ha as [Hid Hno].
  unfold DB.oauth_account_of_hit, linked. simpl. fold (account_id a).
  apply map_eq. intros i.
  destruct (decide (i = "user_id")) as [->|Hu].
  { rewrite lookup_insert_eq.
    rewrite lookup_union_l' by
      (rewrite lookup_union_r by (rewrite lookup_delete_ne by discriminate; exact Hno);
       rewrite lookup_singleton_eq; eauto).
    rewrite lookup_union_r by (rewrite lookup_delete_ne by discriminate; exact Hno).
    apply lookup_singleton_eq. }
  rewrite lookup_insert_ne by congruence.
  destruct (decide (i = "id")) as [->|Hi].
  { rewrite lookup_union_r.
    - rewrite lookup_singleton_eq. now rewrite Hid.
    - rewrite lookup_union_None. split; [apply lookup_delete_eq|].
      now apply lookup_singleton_ne. }
  rewrite !lookup_union, lookup_delete_ne by congruence.
  rewrite !lookup_singleton_ne by congruence.
  now destruct (a !! i).
Qed.

Lemma accounts_made user hits :
  accounts (made user hits) = map DB.oauth_account_of_hit hits.
Proof. now destruct hits. Qed.

Lemma fields_made user hits : fields (made user hits) = user.
Proof. now destruct hits. Qed.

Lemma made_no_hits user hits :
  hits = [] -> made user hits = Pydict user None.
Proof. now intros ->. Qed.

Lemma no_link_to_hits user_id m :
  no_link_to user_id m -> hits_of (linked_to user_id) m = [].
Proof.
  intros Hno. apply hits_of_nil. intros k a Hk.
  destruct (matches (linked_to user_id) a) eqn:Hm; [|reflexivity].
  apply matches_user_id in Hm. now apply Hno in Hk.
Qed.

Lemma no_link_to_unlinked user_id m : no_link_to user_id (unlinked user_id m).
Proof.
  intros k a Hk Hlink. unfold unlinked in Hk.
  apply map_lookup_filter_Some in Hk as [_ Hm]. cbn [snd] in Hm.
  apply matches_user_id in Hlink. unfold linked_to in Hm. congruence.
Qed.

(** After the bulk write of a well-formed set of accounts into a
    collection that held no link to the user, the documents that refer to
    the user are the ones just written, each once. *)
Lemma hits_after_bulk user_id l m :
  well_formed l = true ->
  no_link_to user_id m ->
  hits_of (linked_to user_id) (bulk_docs (map (value_of user_id) l) m)
  ≡ₚ map (fun a => (_id a, document a)) (map (value_of user_id) l).
Proof.
  intros Hwf Hno.
  pose proof (well_formed_Forall _ Hwf) as Hall.
  assert (Hnd : NoDup (map _id (map (value_of user_id) l))).
  { rewrite value_of_ids. apply distinct_NoDup.
    unfold well_formed in Hwf. now apply andb_true_iff in Hwf as [_ ?]. }
  apply NoDup_Permutation.
  - apply NoDup_hits_of.
  - apply (NoDup_fmap_1 fst). change (fmap fst) with (map (@fst string doc)).
    rewrite map_map. exact Hnd.
  - intros [k d]. rewrite elem_of_hits_of. split.
    + intros [Hk Hm]. apply matches_user_id in Hm.
      destruct (decide (k ∈ map _id (map (value_of user_id) l))) as [Hin|Hout].
      * apply list_elem_of_fmap in Hin as [v [-> Hv]].
        rewrite (bulk_docs_lookup_in _ _ _ Hnd Hv) in Hk. injection Hk as <-.
        apply list_elem_of_fmap. now exists v.
      * rewrite bulk_docs_lookup_notin in Hk by assumption.
        now apply Hno in Hk.
    + intros Hin. apply list_elem_of_fmap in Hin as [v [Heq Hv]].
      injection Heq as -> ->. split.
      * now apply bulk_docs_lookup_in.
      * apply list_elem_of_fmap in Hv as [a [-> Ha]].
        apply matches_user_id, value_of_linked.
        rewrite Forall_forall in Hall. now apply Hall.
Qed.

Lemma accounts_after_bulk user_id l m :
  well_formed l = true ->
  plain l = true ->
  no_link_to user_id m ->
  map DB.oauth_account_of_hit
    (hits_of (linked_to user_id) (bulk_docs (map (value_of user_id) l) m))
  ≡ₚ map (linked user_id) l.
Proof.
  intros Hwf Hplain Hno.
  etransitivity.
  { apply Permutation_map, hits_after_bulk; assumption. }
  pose proof (well_formed_Forall _ Hwf) as Hall. clear Hwf.
  apply plain_Forall in Hplain.
  induction Hall as [|a l Ha _ IH]; cbn [map]; [reflexivity|].
  apply Forall_cons in Hplain as [Hp Hplain].
  rewrite (oauth_account_of_value user_id a Ha Hp). constructor. auto.
Qed.

(** Ten accounts at most are all among the hits of [_make_user]. *)
Lemma linked_hits_after_bulk user_id l m :
  well_formed l = true ->
  no_link_to user_id m ->
  length l <= default_size ->
  linked_hits user_id (bulk_docs (map (value_of user_id) l) m)
  = hits_of (linked_to user_id) (bulk_docs (map (value_of user_id) l) m).
Proof.
  intros Hwf Hno Hlen. unfold linked_hits. apply take_ge.
  rewrite (Permutation_length (hits_after_bulk _ _ _ Hwf Hno)).
  now rewrite !length_map.
Qed.

Lemma no_link_to_linked_hits user_id m :
  no_link_to user_id m -> linked_hits user_id m = [].
Proof. intros Hno. unfold linked_hits. now rewrite (no_link_to_hits _ _ Hno). Qed.

(** ** What a successful write leaves *)

Section writes.

Context {UD : Type} `{!User.Model UD} `{!Lowercase}.

Lemma get_by_oauth_account_run oauth account_id st :
  DB.get_by_oauth_account oauth account_id st =
  match hits_of (account_query oauth account_id) (oauth_account_docs st) with
  | [] => (Ok None, st)
  | hit :: _ =>
      match snd hit !! "user_id" with
      | None => (Raise (KeyError "user_id"), st)
      | Some user_id => DB.get (str user_id) st
      end
  end.
Proof.
  unfold DB.get_by_oauth_account, bind, client.search. cbn [docs].
  fold (account_query oauth account_id). rewrite search_first.
  destruct (hits_of _ _) as [|hit hits]; [reflexivity|].
  now destruct (hit.2 !! "user_id").
Qed.

Lemma created_doc_with_id user :
  <[ "id" := VStr (User.id user) ]>
    (created_doc (User.email user) (fields (User.dict user)))
  = <[ "email" := VStr (lower (User.email user)) ]> (fields (User.dict user)).
Proof.
  unfold created_doc. rewrite insert_delete_eq. apply insert_id.
  rewrite lookup_insert_ne by discriminate. apply User.dict_id.
Qed.

Lemma created_doc_email email user_dict :
  created_doc email user_dict !! "email" = Some (VStr (lower email)).
Proof.
  unfold created_doc. rewrite lookup_delete_ne by discriminate.
  apply lookup_insert_eq.
Qed.

(** What a successful [create] leaves. *)
Lemma create_ok_inv user st r st' :
  DB.create user st = (Ok r, st') ->
  r = user /\
  hits_of (with_email (lower (User.email user))) (user_docs st) = [] /\
  user_docs st' =
    <[ User.id user := created_doc (User.email user) (fields (User.dict user)) ]>
      (user_docs st) /\
  oauth_account_docs st' =
    match oauth_accounts (User.dict user) with
    | Some l => bulk_docs (map (value_of (User.id user)) l) (oauth_account_docs st)
    | None => oauth_account_docs st
    end.
Proof.
  rewrite create_run. intros Hc.
  destruct (oauth_accounts (User.dict user)) as [l|].
  - destruct (values_of_oauth_accounts (User.id user) l) as [values|e] eqn:Hv;
      [|discriminate].
    apply values_of_oauth_accounts_inv in Hv as [_ ->].
    destruct (hits_of _ (user_docs st)); [|discriminate].
    injection Hc as <- <-. auto.
  - destruct (hits_of _ (user_docs st)); [|discriminate].
    injection Hc as <- <-. auto.
Qed.

(** What a successful [update] leaves. *)
Lemma update_ok_inv user st r st' :
  DB.update user st = (Ok r, st') ->
  r = user /\
  exists d,
    user_docs st !! User.id user = Some d /\
    user_docs st' =
      <[ User.id user := delete "id" (fields (User.dict user)) ∪ d ]> (user_docs st) /\
    oauth_account_docs st' =
      match oauth_accounts (User.dict user) with
      | Some l =>
          bulk_docs (map (value_of (User.id user)) l)
                    (unlinked (User.id user) (oauth_account_docs st))
      | None => oauth_account_docs st
      end.
Proof.
  rewrite update_run. intros Hu.
  destruct (oauth_accounts (User.dict user)) as [l|].
  - cbv zeta in Hu.
    destruct (values_of_oauth_accounts (User.id user) l) as [values|e] eqn:Hv;
      [|discriminate].
    apply values_of_oauth_accounts_inv in Hv as [_ ->].
    unfold update_document in Hu. simpl in Hu.
    destruct (user_docs st !! User.id user) as [d|]; [|discriminate].
    injection Hu as <- <-. eauto.
  - unfold update_document in Hu.
    destruct (user_docs st !! User.id user) as [d|]; [|discriminate].
    injection Hu as <- <-. eauto.
Qed.

(** [update] of a stored user whose accounts all have an ["id"] returns. *)
Lemma update_ok user st d :
  user_docs st !! User.id user = Some d ->
  Forall (fun a => is_Some (a !! "id")) (accounts (User.dict user)) ->
  exists st', DB.update user st = (Ok user, st').
Proof.
  intros Hd Hall. rewrite update_run. unfold accounts in Hall.
  destruct (oauth_accounts (User.dict user)) as [l|]; simpl in Hall.
  - rewrite (values_of_oauth_accounts_ok _ _ Hall). cbv zeta.
    unfold update_document. simpl. rewrite Hd. eauto.
  - unfold update_document. rewrite Hd. eauto.
Qed.

End writes.

(** ** The claims *)

Section theorems.

Context {UD : Type} `{!User.Model UD} `{!Lowercase}.

(** C6. [get] of an id under which no user document is stored returns
    [None]: the [NotFoundError] of the lookup is caught, nothing is raised,
    and the store is left as it was. *)
Theorem get_missing_returns_none (st : cluster) (id : string) :
  user_docs st !! id = None ->
  DB.get id st = (Ok None, st).
Proof. intros Hnone. rewrite get_run. now rewrite Hnone. Qed.

(** C7, amended. When no linked-account document refers to a stored user,
    [get] gives the constructor of the model a dictionary without the key
    ["oauth_accounts"]: the key is absent, not bound to an empty list.
    (What the field of the record then is, is for the model to say.) *)
Theorem get_without_linked_accounts (st : cluster) (id : string) (d : doc) :
  user_docs st !! id = Some d ->
  no_link_to id (oauth_account_docs st) ->
  exists kw,
    DB.get id st = (Ok (Some (User.user_db_model kw)), st) /\
    oauth_accounts kw = None /\
    fields kw = <[ "id" := VStr id ]> d.
Proof.
  intros Hd Hno. exists (Pydict (<[ "id" := VStr id ]> d) None).
  rewrite get_run, Hd, (no_link_to_linked_hits _ _ Hno). auto.
Qed.

(** C8. A [create] that returns, returns the record it was given, with
    the address as the caller wrote it, while the document it stored holds
    the lower-cased address; an [update] that returns, returns the record
    it was given. *)
Theorem create_update_return_input (user : UD) (st : cluster) (r : UD) (st' : cluster) :
  (DB.create user st = (Ok r, st') ->
   r = user /\
   exists d, user_docs st' !! User.id user = Some d /\
             d !! "email" = Some (VStr (lower (User.email user)))) /\
  (DB.update user st = (Ok r, st') -> r = user).
Proof.
  split.
  - intros Hc. apply create_ok_inv in Hc as (-> & _ & Hdocs & _).
    split; [reflexivity|]. eexists. split.
    + rewrite Hdocs. apply lookup_insert_eq.
    + apply created_doc_email.
  - intros Hu. now apply update_ok_inv in Hu as [-> _].
Qed.

(** C5. After [create] of a user, [get_by_email] of any address equal to
    the user's up to letter case returns what [get] of the user's id
    returns: the record built from the user's fields, with the lower-cased
    address. *)
Theorem get_by_email_ignores_case
  (user : UD) (st : cluster) (r : UD) (st' : cluster) (email' : string) :
  DB.create user st = (Ok r, st') ->
  lower email' = lower (User.email user) ->
  DB.get_by_email email' st' = DB.get (User.id user) st' /\
  exists kw,
    DB.get_by_email email' st' = (Ok (Some (User.user_db_model kw)), st') /\
    fields kw = <[ "email" := VStr (lower (User.email user)) ]> (fields (User.dict user)).
Proof.
  intros Hc Hcase. apply create_ok_inv in Hc as (_ & Hfree & Hdocs & _).
  set (body := created_doc (User.email user) (fields (User.dict user))) in *.
  assert (Hhits : hits_of (with_email (lower email')) (user_docs st')
                  = [(User.id user, body)]).
  { rewrite Hcase, Hdocs. apply hits_of_unique.
    - apply lookup_insert_eq.
    - apply matches_email, created_doc_email.
    - intros k' d' Hk' Hm'. destruct (decide (k' = User.id user)) as [|Hne]; [assumption|].
      rewrite lookup_insert_ne in Hk' by congruence.
      rewrite hits_of_nil in Hfree. rewrite (Hfree _ _ Hk') in Hm'. discriminate. }
  rewrite get_by_email_run, Hhits, get_run, Hdocs, lookup_insert_eq. cbn [fst snd].
  split; [reflexivity|]. eexists. split; [reflexivity|].
  rewrite fields_made. apply created_doc_with_id.
Qed.

(** C4. [delete] of a stored user returns, removes the user document and
    nothing else: the linked-account collection is left as it was.  For
    an account whose lookup resolved to the user, [get_by_oauth_account]
    returned what [get] of the user's id returned, the user.  After the
    [delete], [get] of the id returns [None]; the search still finds the
    same document, with the id of the user that is gone, and
    [get_by_oauth_account] still goes to [get] with that id: it returns
    [None] now, and it would return whatever user document came to be
    stored under the id. *)
Theorem delete_keeps_linked_accounts
  (user : UD) (st : cluster) (d : doc) (oauth account_id : string)
  (hit : string * doc) (hits : list (string * doc)) :
  user_docs st !! User.id user = Some d ->
  hits_of (account_query oauth account_id) (oauth_account_docs st) = hit :: hits ->
  snd hit !! "user_id" = Some (VStr (User.id user)) ->
  exists st',
    DB.delete user st = (Ok tt, st') /\
    user_docs st' = delete (User.id user) (user_docs st) /\
    oauth_account_docs st' = oauth_account_docs st /\
    (exists kw,
       DB.get_by_oauth_account oauth account_id st
       = (Ok (Some (User.user_db_model kw)), st)) /\
    DB.get (User.id user) st' = (Ok None, st') /\
    hits_of (account_query oauth account_id) (oauth_account_docs st') = hit :: hits /\
    DB.get_by_oauth_account oauth account_id st' = (Ok None, st') /\
    (forall users,
       DB.get_by_oauth_account oauth account_id (Cluster users (oauth_account_docs st'))
       = DB.get (User.id user) (Cluster users (oauth_account_docs st'))).
Proof.
  intros Hd Hhits Hlink.
  exists (Cluster (delete (User.id user) (user_docs st)) (oauth_account_docs st)).
  cbn [user_docs oauth_account_docs].
  assert (Hgo : forall st0, oauth_account_docs st0 = oauth_account_docs st ->
            DB.get_by_oauth_account oauth account_id st0 = DB.get (User.id user) st0).
  { intros st0 Hsame. now rewrite get_by_oauth_account_run, Hsame, Hhits, Hlink. }
  assert (Hget : DB.get (User.id user)
                   (Cluster (delete (User.id user) (user_docs st)) (oauth_account_docs st))
                 = (Ok None,
                    Cluster (delete (User.id user) (user_docs st)) (oauth_account_docs st))).
  { rewrite get_run. cbn [user_docs]. now rewrite lookup_delete_eq. }
  split; [rewrite delete_run; now rewrite Hd|].
  split; [reflexivity|]. split; [reflexivity|].
  split; [rewrite (Hgo st eq_refl), get_run, Hd; eauto|].
  split; [exact Hget|]. split; [exact Hhits|].
  split; [rewrite Hgo by reflexivity; exact Hget|].
  intros users. now apply Hgo.
Qed.

(** C1, amended. For a user with at most ten linked accounts, well formed
    and without a key that the bulk helper takes for a parameter, created
    in a store where no linked-account document refers to the user's id,
    the round trip holds: [get] returns the record of the persisted fields
    and of exactly the created accounts. *)
Theorem create_then_get (user : UD) (st : cluster) :
  well_formed (accounts (User.dict user)) = true ->
  plain (accounts (User.dict user)) = true ->
  length (accounts (User.dict user)) <= default_size ->
  no_link_to (User.id user) (oauth_account_docs st) ->
  create_get_roundtrip user st.
Proof.
  intros Hwf Hplain Hlen Hno r st' Hc.
  apply create_ok_inv in Hc as (_ & _ & Hdocs & Hlinks).
  eexists. rewrite get_run, Hdocs, lookup_insert_eq. split; [reflexivity|].
  rewrite fields_made, accounts_made. split; [apply created_doc_with_id|].
  rewrite Hlinks. unfold accounts in *.
  destruct (oauth_accounts (User.dict user)) as [l|]; cbn [default] in *.
  - rewrite linked_hits_after_bulk by assumption. now apply accounts_after_bulk.
  - now rewrite (no_link_to_linked_hits _ _ Hno).
Qed.


(** C9. [update] writes the address as the record has it, without
    lower-casing it.  So after an [update] that returns, of a user whose
    address lower-casing would change (it has an upper-case letter), the
    stored address is that mixed-case address, and the search of
    [get_by_email], whose query is lower-cased, never hits the user's
    document, whatever address is asked for (any casing of the user's own
    included); when no other user has the lower-cased address asked for,
    [get_by_email] returns [None]. *)
Theorem update_stores_email_verbatim
  (user : UD) (st : cluster) (r : UD) (st' : cluster) (email' : string) :
  DB.update user st = (Ok r, st') ->
  lower (User.email user) <> User.email user ->
  (exists d, user_docs st' !! User.id user = Some d /\
             d !! "email" = Some (VStr (User.email user))) /\
  (forall hit, hit ∈ hits_of (with_email (lower email')) (user_docs st') ->
               fst hit <> User.id user) /\
  ((forall k d, user_docs st' !! k = Some d -> k <> User.id user ->
                d !! "email" <> Some (VStr (lower email'))) ->
   DB.get_by_email email' st' = (Ok None, st')).
Proof.
  intros Hu Hup. apply update_ok_inv in Hu as (_ & d & _ & Hdocs & _).
  set (body := delete "id" (fields (User.dict user)) ∪ d) in *.
  assert (Hbody : user_docs st' !! User.id user = Some body).
  { rewrite Hdocs. apply lookup_insert_eq. }
  assert (Hemail : body !! "email" = Some (VStr (User.email user))).
  { subst body. apply lookup_union_Some_l.
    rewrite lookup_delete_ne by discriminate. apply User.dict_email. }
  assert (Hmiss : forall hit,
            hit ∈ hits_of (with_email (lower email')) (user_docs st') ->
            fst hit <> User.id user).
  { intros [k a] Hin Hk. simpl in Hk. subst k.
    apply elem_of_hits_of in Hin as [Hk Hm]. apply matches_email in Hm.
    assert (a = body) by congruence. subst a.
    rewrite Hemail in Hm. injection Hm as Hm.
    now apply (changed_not_lower _ email') in Hup. }
  split; [eauto|]. split; [exact Hmiss|].
  intros Hothers. rewrite get_by_email_run.
  destruct (hits_of _ (user_docs st')) as [|[k a] hits] eqn:Hh; [reflexivity|].
  exfalso.
  assert (Hin : (k, a) ∈ hits_of (with_email (lower email')) (user_docs st'))
    by (rewrite Hh; left).
  assert (Hne : k <> User.id user) by (apply (Hmiss (k, a)); left).
  apply elem_of_hits_of in Hin as [Hk Hm]. apply matches_email in Hm.
  exact (Hothers _ _ Hk Hne Hm).
Qed.

(** C10, amended. [update] of a user whose list of linked accounts is
    present and empty deletes every linked-account document that refers to
    the user and writes none (the other documents stay); when the user is
    stored, [update] returns and [get] then gives the constructor of the
    model a dictionary without the key ["oauth_accounts"].  (What the
    field of the record then is, is for the model to say.) *)
Theorem update_with_empty_list_unlinks (user : UD) (st : cluster) :
  oauth_accounts (User.dict user) = Some [] ->
  let st' := snd (DB.update user st) in
  oauth_account_docs st' = unlinked (User.id user) (oauth_account_docs st) /\
  no_link_to (User.id user) (oauth_account_docs st') /\
  (forall k a, oauth_account_docs st !! k = Some a ->
               a !! "user_id" <> Some (VStr (User.id user)) ->
               oauth_account_docs st' !! k = Some a) /\
  (forall d, user_docs st !! User.id user = Some d ->
     fst (DB.update user st) = Ok user /\
     exists kw,
       DB.get (User.id user) st' = (Ok (Some (User.user_db_model kw)), st') /\
       oauth_accounts kw = None).
Proof.
  intros Hl st'.
  assert (Hlinks : oauth_account_docs st'
                   = unlinked (User.id user) (oauth_account_docs st)).
  { subst st'. rewrite update_run, Hl. simpl. unfold update_document. simpl.
    now destruct (user_docs st !! User.id user). }
  split; [exact Hlinks|]. split; [rewrite Hlinks; apply no_link_to_unlinked|].
  split.
  - intros k a Hk Hno. rewrite Hlinks. unfold unlinked.
    apply map_lookup_filter_Some. split; [assumption|]. cbn [snd].
    destruct (matches (linked_to (User.id user)) a) eqn:Hm; [|reflexivity].
    now apply matches_user_id in Hm.
  - intros d Hd.
    assert (Hrun : DB.update user st =
                   (Ok user,
                    Cluster (<[ User.id user := delete "id" (fields (User.dict user)) ∪ d ]>
                               (user_docs st))
                            (unlinked (User.id user) (oauth_account_docs st)))).
    { rewrite update_run, Hl. simpl. unfold update_document. simpl. now rewrite Hd. }
    subst st'. rewrite Hrun. cbn [fst snd]. split; [reflexivity|].
    eexists. rewrite get_run. cbn [user_docs oauth_account_docs].
    rewrite lookup_insert_eq.
    rewrite (no_link_to_linked_hits _ _ (no_link_to_unlinked _ _)). cbn [made]. auto.
Qed.

(** Not one of the claims: the duplicate check of [create] in the form in
    which it holds.  When a stored user document holds the lower-cased
    address of the record, [create] raises and writes nothing. *)
Lemma create_rejects_stored_email (user : UD) (st : cluster) (k : string) (d : doc) :
  user_docs st !! k = Some d ->
  d !! "email" = Some (VStr (lower (User.email user))) ->
  snd (DB.create user st) = st /\
  exists e, fst (DB.create user st) = Raise e.
Proof.
  intros Hk Hemail. rewrite create_run.
  destruct (match oauth_accounts (User.dict user) with
            | Some l => _ | None => _ end) as [values|e]; [|simpl; eauto].
  destruct (hits_of _ (user_docs st)) as [|hit hits] eqn:Hh; [|simpl; eauto].
  exfalso. rewrite hits_of_nil in Hh. apply matches_email in Hemail.
  unfold with_email in Hh. rewrite (Hh _ _ Hk) in Hemail. discriminate.
Qed.

(** Not one of the claims: creating again, with an address equal up to
    letter case, right after a [create], raises and writes nothing. *)
Lemma create_again_raises (user user' : UD) (st : cluster) (r : UD) (st' : cluster) :
  DB.create user st = (Ok r, st') ->
  lower (User.email user') = lower (User.email user) ->
  snd (DB.create user' st') = st' /\
  exists e, fst (DB.create user' st') = Raise e.
Proof.
  intros Hc Hcase. apply create_ok_inv in Hc as (_ & _ & Hdocs & _).
  apply (create_rejects_stored_email user' st' (User.id user)
           (created_doc (User.email user) (fields (User.dict user)))).
  - rewrite Hdocs. apply lookup_insert_eq.
  - rewrite Hcase. apply created_doc_email.
Qed.

End theorems.

Lemma no_link_to_iff user_id m :
  no_link_to user_id m <-> hits_of (linked_to user_id) m = [].
Proof.
  split; [apply no_link_to_hits|].
  intros Hnil k a Hk Hlink. rewrite hits_of_nil in Hnil.
  apply matches_user_id in Hlink. unfold linked_to in Hnil.
  rewrite (Hnil _ _ Hk) in Hlink. discriminate.
Qed.

(** * Further properties of the operations *)

Lemma normalized_emailsb_sound `{!Lowercase} m :
  normalized_emailsb m = true -> normalized_emails m.
Proof.
  unfold normalized_emailsb. rewrite forallb_forall. intros Hall k d e Hk He.
  specialize (Hall (k, d)). simpl in Hall. rewrite He in Hall.
  apply String.eqb_eq, Hall, list_elem_of_In, elem_of_map_to_list, Hk.
Qed.

Lemma lowercase_emailsb_sound m : lowercase_emailsb m = true -> lowercase_emails m.
Proof.
  unfold lowercase_emailsb. rewrite forallb_forall. intros Hall k d e Hk He.
  specialize (Hall (k, d)). simpl in Hall. rewrite He in Hall.
  apply negb_true_iff, Hall, list_elem_of_In, elem_of_map_to_list, Hk.
Qed.

Lemma unique_emails_empty : unique_emails ∅.
Proof. intros k1 k2 d1 d2 e Hk1. now rewrite lookup_empty in Hk1. Qed.

Lemma accounts_have_id_Forall l :
  accounts_have_id l = true -> Forall (fun a => is_Some (a !! "id")) l.
Proof.
  unfold accounts_have_id. rewrite forallb_forall. intros Hall.
  apply Forall_forall. intros a Ha. apply list_elem_of_In, Hall in Ha.
  destruct (a !! "id"); [eauto | discriminate].
Qed.

Lemma values_of_oauth_accounts_raise user_id l e :
  values_of_oauth_accounts user_id l = Raise e -> e = KeyError "id".
Proof.
  induction l as [|a l IH]; simpl; [discriminate|].
  destruct (a !! "id"); [|congruence].
  destruct (values_of_oauth_accounts user_id l); [discriminate|].
  intros He. injection He as <-. now apply IH.
Qed.

Lemma matches_account_query oauth account_id d :
  matches (account_query oauth account_id) d = true <->
  d !! "oauth_name" = Some (VStr oauth) /\ d !! "account_id" = Some (VStr account_id).
Proof.
  change (matches (account_query oauth account_id) d)
    with (matches (Match "oauth_name.keyword" (VStr oauth)) d
          && (matches (Match "account_id.keyword" (VStr account_id)) d && true)).
  rewrite !andb_true_iff.
  rewrite (matches_keyword "oauth_name.keyword" "oauth_name") by reflexivity.
  rewrite (matches_keyword "account_id.keyword" "account_id") by reflexivity.
  tauto.
Qed.

(** Under an identifier that the bulk request writes, the collection holds
    what the request wrote, whatever it held before. *)
Lemma bulk_docs_lookup_mem values m1 m2 k :
  k ∈ map _id values -> bulk_docs values m1 !! k = bulk_docs values m2 !! k.
Proof.
  revert m1 m2. induction values as [|a values IH]; intros m1 m2 Hk.
  - now apply not_elem_of_nil in Hk.
  - simpl in *. destruct (decide (k ∈ map _id values)) as [Hin|Hout].
    + now apply IH.
    + apply elem_of_cons in Hk as [->|Hk]; [|contradiction].
      rewrite !bulk_docs_lookup_notin by assumption.
      now rewrite !lookup_insert_eq.
Qed.

Lemma unlinked_lookup user_id m k d :
  unlinked user_id m !! k = Some d <->
  m !! k = Some d /\ matches (linked_to user_id) d = false.
Proof. unfold unlinked. now rewrite map_lookup_filter_Some. Qed.

Lemma unlinked_bulk_unlinked user_id values m :
  bulk_docs values (unlinked user_id (bulk_docs values (unlinked user_id m)))
  = bulk_docs values (unlinked user_id m).
Proof.
  apply map_eq. intros k.
  destruct (decide (k ∈ map _id values)) as [Hin|Hout].
  - now apply bulk_docs_lookup_mem.
  - rewrite !bulk_docs_lookup_notin by assumption.
    apply option_eq. intros d. rewrite !unlinked_lookup.
    rewrite bulk_docs_lookup_notin by assumption.
    rewrite unlinked_lookup. tauto.
Qed.

Lemma union_twice (p d : doc) : p ∪ (p ∪ d) = p ∪ d.
Proof. now rewrite (assoc_L (∪)), (idemp_L (∪)). Qed.

Section further.

Context {UD : Type} `{!User.Model UD} `{!Lowercase}.

Lemma create_raise_inv (user : UD) (st : cluster) (e : exn) (st' : cluster) :
  DB.create user st = (Raise e, st') ->
  st' = st /\ (e = Exception \/ e = KeyError "id").
Proof.
  rewrite create_run. intros Hc.
  destruct (oauth_accounts (User.dict user)) as [l|].
  - destruct (values_of_oauth_accounts (User.id user) l) as [values|e0] eqn:Hv.
    + destruct (hits_of _ (user_docs st)); [discriminate|].
      injection Hc as <- <-. auto.
    + injection Hc as <- <-. apply values_of_oauth_accounts_raise in Hv. auto.
  - destruct (hits_of _ (user_docs st)); [discriminate|].
    injection Hc as <- <-. auto.
Qed.

(** X1. A [create] that raises has written nothing: the loop over the
    linked accounts and the duplicate check both come before the first
    write.  It raises the bare [Exception] of the duplicate check or the
    [KeyError] of an account without ["id"], nothing else. *)
Theorem create_raise_writes_nothing (user : UD) (st : cluster) (e : exn) (st' : cluster) :
  DB.create user st = (Raise e, st') ->
  st' = st /\ (e = Exception \/ e = KeyError "id").
Proof. apply create_raise_inv. Qed.

(** X2. In a store where every address is its own lower-casing, [create]
    of a user whose address equals a stored one up to letter case raises
    [Exception] and writes nothing. *)
Theorem create_rejects_address_up_to_case
  (user : UD) (st : cluster) (k : string) (d : doc) (e : string) :
  normalized_emails (user_docs st) ->
  user_docs st !! k = Some d ->
  d !! "email" = Some (VStr e) ->
  lower e = lower (User.email user) ->
  accounts_have_id (accounts (User.dict user)) = true ->
  DB.create user st = (Raise Exception, st).
Proof.
  intros Hlow Hk He Hcase Hids.
  assert (Hmatch : matches (with_email (lower (User.email user))) d = true).
  { apply matches_email. rewrite <- Hcase. now rewrite (Hlow _ _ _ Hk He). }
  rewrite create_run. unfold accounts in Hids.
  destruct (oauth_accounts (User.dict user)) as [l|]; simpl in Hids.
  - rewrite (values_of_oauth_accounts_ok _ _ (accounts_have_id_Forall _ Hids)).
    destruct (hits_of _ (user_docs st)) eqn:Hh; [|reflexivity].
    rewrite hits_of_nil in Hh. rewrite (Hh _ _ Hk) in Hmatch. discriminate.
  - destruct (hits_of _ (user_docs st)) eqn:Hh; [|reflexivity].
    rewrite hits_of_nil in Hh. rewrite (Hh _ _ Hk) in Hmatch. discriminate.
Qed.

(** X3. [create] and [delete] keep the addresses of the store in lower
    case, whether they return or raise. *)
Theorem create_delete_keep_lowercase (user : UD) (st : cluster) :
  lowercase_emails (user_docs st) ->
  lowercase_emails (user_docs (snd (DB.create user st))) /\
  lowercase_emails (user_docs (snd (DB.delete user st))).
Proof.
  intros Hlow. split.
  - destruct (DB.create user st) as [[r|e] st'] eqn:Hc; simpl.
    + apply create_ok_inv in Hc as (_ & _ & Hdocs & _). rewrite Hdocs.
      intros k d e Hk He. destruct (decide (k = User.id user)) as [->|Hne].
      * rewrite lookup_insert_eq in Hk. injection Hk as <-.
        rewrite created_doc_email in He. injection He as <-.
        apply lower_no_ascii_upper.
      * rewrite lookup_insert_ne in Hk by congruence. eauto.
    + now apply create_raise_inv in Hc as [-> _].
  - rewrite delete_run. destruct (user_docs st !! User.id user); simpl; [|assumption].
    intros k d e Hk He. apply lookup_delete_Some in Hk as [_ Hk]. eauto.
Qed.

(** X4. [create] and [delete] keep the stored addresses pairwise
    different: the duplicate check of [create] sees every other document,
    and the document under the id of the record is replaced. *)
Theorem create_delete_keep_emails_unique (user : UD) (st : cluster) :
  unique_emails (user_docs st) ->
  unique_emails (user_docs (snd (DB.create user st))) /\
  unique_emails (user_docs (snd (DB.delete user st))).
Proof.
  intros Huniq. split.
  - destruct (DB.create user st) as [[r|e] st'] eqn:Hc; simpl.
    + apply create_ok_inv in Hc as (_ & Hfree & Hdocs & _). rewrite Hdocs.
      rewrite hits_of_nil in Hfree.
      assert (Hnew : forall k d e,
                user_docs st !! k = Some d ->
                created_doc (User.email user) (fields (User.dict user)) !! "email"
                = Some (VStr e) ->
                d !! "email" = Some (VStr e) -> False).
      { intros k d e Hk He Hd. rewrite created_doc_email in He. injection He as <-.
        apply matches_email in Hd. unfold with_email in Hfree.
        rewrite (Hfree _ _ Hk) in Hd. discriminate. }
      intros k1 k2 d1 d2 e Hk1 Hk2 He1 He2.
      destruct (decide (k1 = User.id user)) as [->|Hne1];
        destruct (decide (k2 = User.id user)) as [->|Hne2]; [reflexivity| | |].
      * rewrite lookup_insert_eq in Hk1. injection Hk1 as <-.
        rewrite lookup_insert_ne in Hk2 by congruence.
        destruct (Hnew _ _ _ Hk2 He1 He2).
      * rewrite lookup_insert_eq in Hk2. injection Hk2 as <-.
        rewrite lookup_insert_ne in Hk1 by congruence.
        destruct (Hnew _ _ _ Hk1 He2 He1).
      * rewrite lookup_insert_ne in Hk1, Hk2 by congruence. eauto.
    + now apply create_raise_inv in Hc as [-> _].
  - rewrite delete_run. destruct (user_docs st !! User.id user); simpl; [|assumption].
    intros k1 k2 d1 d2 e Hk1 Hk2. apply lookup_delete_Some in Hk1 as [_ Hk1].
    apply lookup_delete_Some in Hk2 as [_ Hk2]. eauto.
Qed.


(** X6. The round trip of [create] and [get_by_oauth_account]: after
    [create] of a user with well-formed linked accounts, the lookup by the
    provider name and account id of one of them returns what [get] of the
    user's id returns, provided no document of the store and no other
    account of the record has that provider name and account id. *)
Theorem create_then_get_by_oauth_account
  (user : UD) (st : cluster) (r : UD) (st' : cluster)
  (a : doc) (oauth account : string) :
  DB.create user st = (Ok r, st') ->
  well_formed (accounts (User.dict user)) = true ->
  a ∈ accounts (User.dict user) ->
  a !! "oauth_name" = Some (VStr oauth) ->
  a !! "account_id" = Some (VStr account) ->
  (forall k d, oauth_account_docs st !! k = Some d ->
               matches (account_query oauth account) d = false) ->
  (forall b, b ∈ accounts (User.dict user) ->
             b !! "oauth_name" = Some (VStr oauth) ->
             b !! "account_id" = Some (VStr account) -> b = a) ->
  DB.get_by_oauth_account oauth account st' = DB.get (User.id user) st' /\
  exists kw, DB.get (User.id user) st' = (Ok (Some (User.user_db_model kw)), st').
Proof.
  intros Hc Hwf Ha Hname Hacc Hold Hothers.
  apply create_ok_inv in Hc as (_ & _ & Hdocs & Hlinks).
  unfold accounts in *.
  destruct (oauth_accounts (User.dict user)) as [l|]; cbn [default] in *;
    [|now apply not_elem_of_nil in Ha].
  set (values := map (value_of (User.id user)) l) in *.
  assert (Hnd : NoDup (map _id values)).
  { subst values. rewrite value_of_ids. apply distinct_NoDup.
    unfold well_formed in Hwf. now apply andb_true_iff in Hwf as [_ ?]. }
  assert (Hsrc : forall b key, key <> "id" -> key <> "user_id" -> key ∉ metadata_keys ->
            document (value_of (User.id user) b) !! key = b !! key).
  { intros b key Hk1 Hk2 Hk3. rewrite document_lookup by assumption. simpl.
    rewrite lookup_union, lookup_delete_ne by congruence.
    rewrite lookup_singleton_ne by congruence. now destruct (b !! key). }
  assert (Hhits : hits_of (account_query oauth account) (oauth_account_docs st')
                  = [(_id (value_of (User.id user) a), document (value_of (User.id user) a))]).
  { rewrite Hlinks. apply hits_of_unique.
    - apply bulk_docs_lookup_in; [assumption|].
      subst values. apply list_elem_of_fmap. eauto.
    - apply matches_account_query.
      rewrite !Hsrc by (try discriminate; not_metadata). auto.
    - intros k' d' Hk' Hm'.
      destruct (decide (k' ∈ map _id values)) as [Hin|Hout].
      + apply list_elem_of_fmap in Hin as [v [-> Hv]].
        rewrite (bulk_docs_lookup_in _ _ _ Hnd Hv) in Hk'. injection Hk' as <-.
        subst values. apply list_elem_of_fmap in Hv as [b [-> Hb]].
        apply matches_account_query in Hm' as [Hn' Ha'].
        rewrite Hsrc in Hn', Ha' by (try discriminate; not_metadata).
        now rewrite (Hothers b Hb Hn' Ha').
      + rewrite bulk_docs_lookup_notin in Hk' by assumption.
        rewrite (Hold _ _ Hk') in Hm'. discriminate. }
  rewrite get_by_oauth_account_run, Hhits. cbn [snd].
  assert (Hwa : well_formed_account a = true).
  { pose proof (well_formed_Forall _ Hwf) as Hall.
    rewrite Forall_forall in Hall. now apply Hall. }
  rewrite (value_of_linked _ _ Hwa). cbn [str]. split; [reflexivity|].
  rewrite get_run, Hdocs, lookup_insert_eq. eauto.
Qed.

(** X7. [update] of a user that is not stored raises [NotFoundError], and
    the failure comes after the writes to the linked accounts: when the
    record carries linked accounts, the documents that referred to the
    user have been deleted and the new ones written all the same.  The
    user documents are as they were. *)
Theorem update_missing_user_raises (user : UD) (st : cluster) :
  user_docs st !! User.id user = None ->
  accounts_have_id (accounts (User.dict user)) = true ->
  DB.update user st =
  (Raise NotFoundError,
   Cluster (user_docs st)
     match oauth_accounts (User.dict user) with
     | Some l =>
         bulk_docs (map (value_of (User.id user)) l)
                   (unlinked (User.id user) (oauth_account_docs st))
     | None => oauth_account_docs st
     end).
Proof.
  intros Hnone Hids. rewrite update_run. unfold accounts in Hids.
  destruct (oauth_accounts (User.dict user)) as [l|]; cbn [default] in Hids.
  - rewrite (values_of_oauth_accounts_ok _ _ (accounts_have_id_Forall _ Hids)).
    cbv zeta. unfold update_document. cbn [user_docs]. now rewrite Hnone.
  - unfold update_document. rewrite Hnone. now destruct st.
Qed.

(** X8. [update] merges, it does not replace: for a stored user whose
    record has no list of linked accounts, it returns, leaves the
    linked-account collection and the other users as they were, and in
    the stored document every key of the record but ["id"] takes the value
    of the record while every other key keeps its stored value. *)
Theorem update_merges_fields (user : UD) (st : cluster) (d : doc) :
  user_docs st !! User.id user = Some d ->
  oauth_accounts (User.dict user) = None ->
  exists st' d',
    DB.update user st = (Ok user, st') /\
    oauth_account_docs st' = oauth_account_docs st /\
    user_docs st' !! User.id user = Some d' /\
    (forall k, k <> User.id user -> user_docs st' !! k = user_docs st !! k) /\
    (forall key v, key <> "id" -> fields (User.dict user) !! key = Some v ->
                   d' !! key = Some v) /\
    (forall key, fields (User.dict user) !! key = None -> d' !! key = d !! key) /\
    d' !! "id" = d !! "id".
Proof.
  intros Hd Hnone. rewrite update_run, Hnone. unfold update_document. rewrite Hd.
  eexists _, _. split; [reflexivity|]. cbn [user_docs oauth_account_docs].
  split; [reflexivity|]. split; [apply lookup_insert_eq|].
  split; [intros k Hk; now apply lookup_insert_ne|].
  split; [|split].
  - intros key v Hkey Hv. apply lookup_union_Some_l.
    now rewrite lookup_delete_ne by congruence.
  - intros key Hkey. rewrite lookup_union_r; [reflexivity|].
    destruct (decide (key = "id")) as [->|Hne]; [apply lookup_delete_eq|].
    now rewrite lookup_delete_ne by congruence.
  - rewrite lookup_union_r; [reflexivity | apply lookup_delete_eq].
Qed.

(** X9. [update] is idempotent: doing it again on the store it left gives
    the same outcome and the same store, whether it returned or raised. *)
Theorem update_idempotent (user : UD) (st : cluster) :
  DB.update user (snd (DB.update user st)) = DB.update user st.
Proof.
  rewrite !update_run.
  destruct (oauth_accounts (User.dict user)) as [l|]; cbv zeta.
  - destruct (values_of_oauth_accounts (User.id user) l) as [values|e] eqn:Hv.
    + unfold update_document. cbn [user_docs oauth_account_docs].
      destruct (user_docs st !! User.id user) as [d|] eqn:Hd;
        cbn [snd user_docs oauth_account_docs].
      * rewrite lookup_insert_eq, unlinked_bulk_unlinked.
        now rewrite insert_insert_eq, union_twice.
      * now rewrite Hd, unlinked_bulk_unlinked.
    + cbn [snd user_docs oauth_account_docs]. do 2 f_equal.
      apply map_eq. intros k. apply option_eq. intros d.
      rewrite !unlinked_lookup. tauto.
  - unfold update_document.
    destruct (user_docs st !! User.id user) as [d|] eqn:Hd;
      cbn [snd user_docs oauth_account_docs].
    + rewrite lookup_insert_eq. now rewrite insert_insert_eq, union_twice.
    + now rewrite Hd.
Qed.

(** X10. [delete] of a user that is not stored raises [NotFoundError] and
    changes nothing; so a second [delete] of the same user always raises. *)
Theorem delete_again_raises (user : UD) (st : cluster) :
  (user_docs st !! User.id user = None ->
   DB.delete user st = (Raise NotFoundError, st)) /\
  DB.delete user (snd (DB.delete user st))
  = (Raise NotFoundError, snd (DB.delete user st)).
Proof.
  split.
  - intros Hnone. rewrite delete_run. now rewrite Hnone.
  - rewrite (delete_run user (snd _)). rewrite (delete_run user st).
    destruct (user_docs st !! User.id user) eqn:Hd; cbn [snd user_docs].
    + now rewrite lookup_delete_eq.
    + now rewrite Hd.
Qed.

(** X11. After [create] and then [delete] of a user, [get_by_email] of the
    user's address, in any casing, returns [None]: the duplicate check of
    [create] made the created document the only one with that address. *)
Theorem create_delete_get_by_email
  (user : UD) (st : cluster) (r : UD) (st' : cluster) (email' : string) :
  DB.create user st = (Ok r, st') ->
  lower email' = lower (User.email user) ->
  DB.delete user st' = (Ok tt, snd (DB.delete user st')) /\
  DB.get_by_email email' (snd (DB.delete user st'))
  = (Ok None, snd (DB.delete user st')).
Proof.
  intros Hc Hcase. apply create_ok_inv in Hc as (_ & Hfree & Hdocs & _).
  rewrite delete_run, Hdocs, lookup_insert_eq. cbn [snd]. split; [reflexivity|].
  rewrite get_by_email_run. cbn [user_docs]. rewrite Hcase.
  rewrite delete_insert_eq.
  assert (Hnil : hits_of (with_email (lower (User.email user)))
                   (delete (User.id user) (user_docs st)) = []).
  { apply hits_of_nil. intros k d Hk. apply lookup_delete_Some in Hk as [_ Hk].
    rewrite hits_of_nil in Hfree. eauto. }
  now rewrite Hnil.
Qed.

(** X13. [get_by_oauth_account] needs both fields to match: when no
    linked-account document has the provider name together with the
    account id, it returns [None], whatever documents have one of the
    two. *)
Theorem get_by_oauth_account_no_match (st : cluster) (oauth account : string) :
  (forall k d, oauth_account_docs st !! k = Some d ->
               d !! "oauth_name" = Some (VStr oauth) ->
               d !! "account_id" <> Some (VStr account)) ->
  DB.get_by_oauth_account oauth account st = (Ok None, st).
Proof.
  intros Hno. rewrite get_by_oauth_account_run.
  assert (Hnil : hits_of (account_query oauth account) (oauth_account_docs st) = []).
  { apply hits_of_nil. intros k d Hk.
    destruct (matches (account_query oauth account) d) eqn:Hm; [|reflexivity].
    apply matches_account_query in Hm as [Hn Ha]. now destruct (Hno _ _ Hk Hn). }
  now rewrite Hnil.
Qed.

(** X14. [create] writes under the id of the record and under the
    identifiers of its linked accounts, and nowhere else: every other user
    document and every other linked-account document is as it was, whether
    [create] returns or raises.  In particular it deletes nothing. *)
Theorem create_keeps_other_documents (user : UD) (st : cluster) (k : string) :
  (k <> User.id user ->
   user_docs (snd (DB.create user st)) !! k = user_docs st !! k) /\
  (k ∉ map account_id (accounts (User.dict user)) ->
   oauth_account_docs (snd (DB.create user st)) !! k = oauth_account_docs st !! k).
Proof.
  destruct (DB.create user st) as [[r|e] st'] eqn:Hc; cbn [snd].
  - apply create_ok_inv in Hc as (_ & _ & Hdocs & Hlinks). split.
    + intros Hne. rewrite Hdocs. now apply lookup_insert_ne.
    + intros Hout. rewrite Hlinks. unfold accounts in Hout.
      destruct (oauth_accounts (User.dict user)) as [l|]; [|reflexivity].
      apply bulk_docs_lookup_notin. now rewrite value_of_ids.
  - apply create_raise_inv in Hc as [-> _]. auto.
Qed.

(** X15. [delete] of a user leaves every other user as [get] sees it. *)
Theorem delete_keeps_other_users (user : UD) (st : cluster) (id' : string) :
  id' <> User.id user ->
  DB.get id' (snd (DB.delete user st))
  = (fst (DB.get id' st), snd (DB.delete user st)).
Proof.
  intros Hne. rewrite !get_run. cbn [fst]. rewrite delete_run.
  destruct (user_docs st !! User.id user); cbn [snd user_docs oauth_account_docs];
    [|reflexivity].
  now rewrite lookup_delete_ne by congruence.
Qed.

(** X16. After an [update] that returns, of a user whose address is in
    lower case and is the address of no other user, [get_by_email] of an
    address whose lower-casing is the user's returns what [get] of the
    user's id returns. *)
Theorem update_then_get_by_email
  (user : UD) (st : cluster) (r : UD) (st' : cluster) (email' : string) :
  DB.update user st = (Ok r, st') ->
  lower email' = User.email user ->
  (forall k d, user_docs st !! k = Some d -> k <> User.id user ->
               d !! "email" <> Some (VStr (User.email user))) ->
  DB.get_by_email email' st' = DB.get (User.id user) st'.
Proof.
  intros Hu Hcase Hothers.
  apply update_ok_inv in Hu as (_ & d & _ & Hdocs & _).
  set (body := delete "id" (fields (User.dict user)) ∪ d) in *.
  assert (Hhits : hits_of (with_email (lower email')) (user_docs st')
                  = [(User.id user, body)]).
  { rewrite Hcase, Hdocs. apply hits_of_unique.
    - apply lookup_insert_eq.
    - apply matches_email. subst body. apply lookup_union_Some_l.
      rewrite lookup_delete_ne by discriminate. apply User.dict_email.
    - intros k' d' Hk' Hm'.
      destruct (decide (k' = User.id user)) as [|Hne]; [assumption|].
      rewrite lookup_insert_ne in Hk' by congruence.
      apply matches_email in Hm'. now destruct (Hothers _ _ Hk' Hne). }
  rewrite get_by_email_run, Hhits, get_run, Hdocs, lookup_insert_eq. reflexivity.
Qed.

(** X17. [update] leaves the linked accounts of the other users alone: a
    linked-account document that does not refer to the user, and whose
    identifier no account of the record has, is as it was, whether
    [update] returns or raises. *)
Theorem update_keeps_other_linked_accounts
  (user : UD) (st : cluster) (k : string) (a : doc) :
  oauth_account_docs st !! k = Some a ->
  a !! "user_id" <> Some (VStr (User.id user)) ->
  k ∉ map account_id (accounts (User.dict user)) ->
  oauth_account_docs (snd (DB.update user st)) !! k = Some a.
Proof.
  intros Hk Hother Hout.
  assert (Hkept : unlinked (User.id user) (oauth_account_docs st) !! k = Some a).
  { apply unlinked_lookup. split; [assumption|].
    destruct (matches (linked_to (User.id user)) a) eqn:Hm; [|reflexivity].
    now apply matches_user_id in Hm. }
  rewrite update_run. unfold accounts in Hout.
  destruct (oauth_accounts (User.dict user)) as [l|]; cbn [default] in Hout; cbv zeta.
  - destruct (values_of_oauth_accounts (User.id user) l) as [values|e] eqn:Hv;
      [|exact Hkept].
    apply values_of_oauth_accounts_inv in Hv as [_ ->].
    assert (Hbulk : bulk_docs (map (value_of (User.id user)) l)
                      (unlinked (User.id user) (oauth_account_docs st)) !! k = Some a).
    { rewrite bulk_docs_lookup_notin by now rewrite value_of_ids. exact Hkept. }
    unfold update_document. cbn [user_docs oauth_account_docs].
    now destruct (user_docs st !! User.id user).
  - unfold update_document. now destruct (user_docs st !! User.id user).
Qed.

(** X18. [update] has no duplicate check: for a stored user it returns even
    when another user is stored under the address of the record, and then
    two user documents hold the same address. *)
Theorem update_can_duplicate_address
  (user : UD) (st : cluster) (d : doc) (k : string) (d2 : doc) :
  user_docs st !! User.id user = Some d ->
  accounts_have_id (accounts (User.dict user)) = true ->
  k <> User.id user ->
  user_docs st !! k = Some d2 ->
  d2 !! "email" = Some (VStr (User.email user)) ->
  exists st', DB.update user st = (Ok user, st') /\ ~ unique_emails (user_docs st').
Proof.
  intros Hd Hids Hne Hk He.
  destruct (update_ok user st d Hd (accounts_have_id_Forall _ Hids)) as [st' Hu].
  exists st'. split; [exact Hu|].
  apply update_ok_inv in Hu as (_ & d' & Hd' & Hdocs & _).
  intros Huniq. apply Hne.
  apply (Huniq k (User.id user) d2 (delete "id" (fields (User.dict user)) ∪ d')
           (User.email user)).
  - rewrite Hdocs. now rewrite lookup_insert_ne by congruence.
  - rewrite Hdocs. apply lookup_insert_eq.
  - exact He.
  - apply lookup_union_Some_l. rewrite lookup_delete_ne by discriminate.
    apply User.dict_email.
Qed.

(** X19. [create] and [delete] keep every stored address its own
    lower-casing, whether they return or raise. *)
Theorem create_delete_keep_normalized (user : UD) (st : cluster) :
  normalized_emails (user_docs st) ->
  normalized_emails (user_docs (snd (DB.create user st))) /\
  normalized_emails (user_docs (snd (DB.delete user st))).
Proof.
  intros Hlow. split.
  - destruct (DB.create user st) as [[r|e] st'] eqn:Hc; simpl.
    + apply create_ok_inv in Hc as (_ & _ & Hdocs & _). rewrite Hdocs.
      intros k d e Hk He. destruct (decide (k = User.id user)) as [->|Hne].
      * rewrite lookup_insert_eq in Hk. injection Hk as <-.
        rewrite created_doc_email in He. injection He as <-.
        apply lower_idem.
      * rewrite lookup_insert_ne in Hk by congruence. eauto.
    + now apply create_raise_inv in Hc as [-> _].
  - rewrite delete_run. destruct (user_docs st !! User.id user); simpl; [|assumption].
    intros k d e Hk He. apply lookup_delete_Some in Hk as [_ Hk]. eauto.
Qed.

End further.

Lemma no_account_match_of_hits (m : gmap string doc) (oauth account : string) :
  hits_of (account_query oauth account) m = [] ->
  forall k d, m !! k = Some d ->
              d !! "oauth_name" = Some (VStr oauth) ->
              d !! "account_id" <> Some (VStr account).
Proof.
  intros Hnil k d Hk Hn Ha. rewrite hits_of_nil in Hnil.
  assert (Hm : matches (account_query oauth account) d = true)
    by now apply matches_account_query.
  rewrite (Hnil _ _ Hk) in Hm. discriminate.
Qed.

(** * Concrete runs *)

(** The runs are on ASCII strings. *)
#[local] Existing Instance ascii_lowercase.

Lemma get_missing_returns_none_witness :
  @DB.get UserDB _ "u9" Example.st_alice = (Ok None, Example.st_alice).
Proof. apply get_missing_returns_none. vm_compute. reflexivity. Defined.

Lemma get_without_linked_accounts_witness :
  exists kw,
    @DB.get UserDB _ "u2" Example.st_bob = (Ok (Some (User.user_db_model kw)), Example.st_bob) /\
    oauth_accounts kw = None /\
    fields kw = <[ "id" := VStr "u2" ]>
                  (created_doc "bob@b.com" (fields (User.dict Example.bob))).
Proof.
  apply get_without_linked_accounts.
  - vm_compute. reflexivity.
  - apply no_link_to_iff. vm_compute. reflexivity.
Defined.

(** C7, as stated, fails for a model whose field has a default: no
    linked-account document refers to Dan, and the record that [get]
    returns has the field, bound to the empty list. *)
Lemma get_returns_default_of_model :
  ~ get_omits_linked_accounts (UD := OAuthUserDB) Example.st_dan "u5".
Proof.
  intros Hclaim.
  assert (Hno : no_link_to "u5" (oauth_account_docs Example.st_dan))
    by (apply no_link_to_iff; vm_compute; reflexivity).
  specialize (Hclaim Hno
    (User.user_db_model
       (Pydict (<[ "id" := VStr "u5" ]>
                  (created_doc "dan@b.com" (fields (User.dict Example.dan)))) None))).
  assert (Hget : oauth_accounts
                   (User.dict (User.user_db_model (UD := OAuthUserDB)
                      (Pydict (<[ "id" := VStr "u5" ]>
                         (created_doc "dan@b.com" (fields (User.dict Example.dan)))) None)))
                 = None).
  { apply Hclaim. vm_compute. reflexivity. }
  vm_compute in Hget. discriminate.
Qed.

Lemma create_update_return_input_witness :
  (Example.alice = Example.alice /\
   exists d, user_docs Example.st_alice !! User.id Example.alice = Some d /\
             d !! "email" = Some (VStr (lower (User.email Example.alice)))) /\
  Example.alice_gitlab = Example.alice_gitlab.
Proof.
  split.
  - apply (proj1 (create_update_return_input
                    Example.alice Example.empty Example.alice Example.st_alice)).
    vm_compute. reflexivity.
  - apply (proj2 (create_update_return_input
                    Example.alice_gitlab Example.st_alice Example.alice_gitlab
                    (snd (DB.update Example.alice_gitlab Example.st_alice)))).
    vm_compute. reflexivity.
Defined.

Lemma get_by_email_ignores_case_witness :
  DB.get_by_email (UD := UserDB) "a@B.COM" Example.st_alice
  = DB.get (User.id Example.alice) Example.st_alice /\
  exists kw,
    DB.get_by_email (UD := UserDB) "a@B.COM" Example.st_alice
    = (Ok (Some (User.user_db_model kw)), Example.st_alice) /\
    fields kw = <[ "email" := VStr (lower (User.email Example.alice)) ]>
                  (fields (User.dict Example.alice)).
Proof.
  apply (get_by_email_ignores_case Example.alice Example.empty Example.alice).
  - vm_compute. reflexivity.
  - vm_compute. reflexivity.
Defined.

Lemma delete_keeps_linked_accounts_witness :
  let hit := ("o1", document (value_of "u1" Example.google)) in
  exists st',
    DB.delete Example.alice Example.st_alice = (Ok tt, st') /\
    user_docs st' = delete (User.id Example.alice) (user_docs Example.st_alice) /\
    oauth_account_docs st' = oauth_account_docs Example.st_alice /\
    (exists kw,
       DB.get_by_oauth_account (UD := UserDB) "google" "100" Example.st_alice
       = (Ok (Some (User.user_db_model kw)), Example.st_alice)) /\
    DB.get (UD := UserDB) (User.id Example.alice) st' = (Ok None, st') /\
    hits_of (account_query "google" "100") (oauth_account_docs st') = [hit] /\
    DB.get_by_oauth_account (UD := UserDB) "google" "100" st' = (Ok None, st') /\
    (forall users,
       DB.get_by_oauth_account (UD := UserDB) "google" "100"
         (Cluster users (oauth_account_docs st'))
       = DB.get (User.id Example.alice) (Cluster users (oauth_account_docs st'))).
Proof.
  intros hit.
  apply (delete_keeps_linked_accounts Example.alice Example.st_alice
           (created_doc "A@B.com" (fields (User.dict Example.alice)))
           "google" "100" hit []).
  - vm_compute. reflexivity.
  - vm_compute. reflexivity.
  - vm_compute. reflexivity.
Defined.

Lemma create_then_get_witness :
  exists kw,
    DB.get (User.id Example.alice) Example.st_alice
    = (Ok (Some (User.user_db_model kw)), Example.st_alice) /\
    fields kw = <[ "email" := VStr (lower (User.email Example.alice)) ]>
                  (fields (User.dict Example.alice)) /\
    accounts kw ≡ₚ map (linked (User.id Example.alice))
                       (accounts (User.dict Example.alice)).
Proof.
  refine (create_then_get Example.alice Example.empty _ _ _ _
            Example.alice Example.st_alice _).
  - vm_compute. reflexivity.
  - vm_compute. reflexivity.
  - vm_compute. repeat constructor.
  - apply no_link_to_iff. vm_compute. reflexivity.
  - vm_compute. reflexivity.
Defined.


(** The eleven accounts are well formed and have no parameter of the bulk
    helper among their keys. *)
Lemma eleven_well_formed :
  well_formed Example.eleven = true /\ plain Example.eleven = true /\
  length Example.eleven = 11.
Proof. repeat split; vm_compute; reflexivity. Qed.


Lemma update_stores_email_verbatim_witness :
  (exists d, user_docs Example.st_updated !! User.id Example.alice = Some d /\
             d !! "email" = Some (VStr (User.email Example.alice))) /\
  (forall hit, hit ∈ hits_of (with_email (lower "a@b.com")) (user_docs Example.st_updated) ->
               fst hit <> User.id Example.alice) /\
  ((forall k d, user_docs Example.st_updated !! k = Some d -> k <> User.id Example.alice ->
                d !! "email" <> Some (VStr (lower "a@b.com"))) ->
   DB.get_by_email (UD := UserDB) "a@b.com" Example.st_updated
   = (Ok None, Example.st_updated)).
Proof.
  apply (update_stores_email_verbatim Example.alice Example.st_alice Example.alice).
  - vm_compute. reflexivity.
  - vm_compute. discriminate.
Defined.

Lemma update_with_empty_list_unlinks_witness :
  let st' := snd (DB.update Example.alice_unlinked Example.st_alice) in
  oauth_account_docs st'
  = unlinked (User.id Example.alice_unlinked) (oauth_account_docs Example.st_alice) /\
  no_link_to (User.id Example.alice_unlinked) (oauth_account_docs st') /\
  (forall k a, oauth_account_docs Example.st_alice !! k = Some a ->
               a !! "user_id" <> Some (VStr (User.id Example.alice_unlinked)) ->
               oauth_account_docs st' !! k = Some a) /\
  (forall d, user_docs Example.st_alice !! User.id Example.alice_unlinked = Some d ->
     fst (DB.update Example.alice_unlinked Example.st_alice) = Ok Example.alice_unlinked /\
     exists kw,
       DB.get (User.id Example.alice_unlinked) st'
       = (Ok (Some (User.user_db_model kw)), st') /\
       oauth_accounts kw = None).
Proof.
  apply (update_with_empty_list_unlinks Example.alice_unlinked Example.st_alice).
  reflexivity.
Defined.

(** C10, as stated, fails for a model whose field has a default, the only
    kind of model whose records have a list of linked accounts to empty:
    after [update] of Dan, whose list is empty, the record that [get]
    returns has the field, bound to the empty list. *)
Lemma update_returns_default_of_model :
  ~ update_empty_omits_linked_accounts Example.dan Example.st_dan.
Proof.
  intros Hclaim.
  destruct (Hclaim eq_refl (created_doc "dan@b.com" (fields (User.dict Example.dan))))
    as (r & Hget & Hnone).
  { vm_compute. reflexivity. }
  assert (Hsome :
    match fst (DB.get (UD := OAuthUserDB) (User.id Example.dan)
                 (snd (DB.update Example.dan Example.st_dan))) with
    | Ok (Some u) => oauth_accounts (User.dict u)
    | _ => None
    end = Some []) by (vm_compute; reflexivity).
  rewrite Hget in Hsome. cbn [fst] in Hsome. congruence.
Qed.

(** C1, as stated, fails when the id is used again: after [create(alice)]
    and [delete(alice)] the two linked-account documents of Alice remain,
    and [get] after the [create] of a record with the same id and one
    linked account returns three linked accounts. *)
Lemma create_get_roundtrip_fails_on_reused_id :
  ~ create_get_roundtrip Example.alice_gitlab Example.st_deleted.
Proof.
  intros Hclaim.
  destruct (Hclaim Example.alice_gitlab
              (snd (DB.create Example.alice_gitlab Example.st_deleted)))
    as (kw & Hget & _ & Hperm).
  { vm_compute. reflexivity. }
  apply Permutation_length in Hperm.
  assert (Hthree :
    match fst (DB.get (User.id Example.alice_gitlab)
                 (snd (DB.create Example.alice_gitlab Example.st_deleted))) with
    | Ok (Some u) => length (default [] (db_oauth_accounts u))
    | _ => 0
    end = 3) by (vm_compute; reflexivity).
  rewrite Hget in Hthree. simpl in Hthree.
  unfold accounts in Hperm. rewrite Hthree in Hperm. discriminate.
Qed.

(** C2, at the failing input: after [update] has written Alice's address
    ["A@B.com"] as it is, [create] of a second user with the address
    ["a@b.com"], equal to it up to letter case, does not raise, and the
    store holds two users whose addresses differ in letter case only. *)
Theorem create_accepts_duplicate_after_update :
  DB.update Example.alice Example.st_alice = (Ok Example.alice, Example.st_updated) /\
  (exists d, user_docs Example.st_updated !! "u1" = Some d /\
             d !! "email" = Some (VStr "A@B.com")) /\
  lower (User.email Example.mallory) = lower "A@B.com" /\
  exists st',
    DB.create Example.mallory Example.st_updated = (Ok Example.mallory, st') /\
    (exists d, user_docs st' !! "u1" = Some d /\ d !! "email" = Some (VStr "A@B.com")) /\
    (exists d, user_docs st' !! "u3" = Some d /\ d !! "email" = Some (VStr "a@b.com")).
Proof.
  split; [vm_compute; reflexivity|].
  split.
  { exists (delete "id" (fields (User.dict Example.alice))
            ∪ created_doc "A@B.com" (fields (User.dict Example.alice))).
    split; vm_compute; reflexivity. }
  split; [vm_compute; reflexivity|].
  exists (snd (DB.create Example.mallory Example.st_updated)).
  split; [vm_compute; reflexivity|].
  split.
  - exists (delete "id" (fields (User.dict Example.alice))
            ∪ created_doc "A@B.com" (fields (User.dict Example.alice))).
    split; vm_compute; reflexivity.
  - exists (created_doc "a@b.com" (fields (User.dict Example.mallory))).
    split; vm_compute; reflexivity.
Qed.

(** Not one of the claims: why a set of linked accounts has pairwise
    distinct identifiers.  The documents are keyed by the identifier of the
    account, so of two accounts that share one, the later replaces the
    earlier: [get] returns one linked account. *)
Lemma update_with_shared_identifier_keeps_last :
  well_formed [Example.google; Example.github_o1] = false /\
  match fst (DB.get "u1" (snd (DB.update Example.alice_shared Example.st_alice))) with
  | Ok (Some u) => db_oauth_accounts u
  | _ => None
  end = Some [linked "u1" Example.github_o1].
Proof. split; vm_compute; reflexivity. Qed.

(** ** Concrete runs of the further properties *)

Lemma create_raise_writes_nothing_witness :
  Example.st_alice = Example.st_alice /\
  (Exception = Exception \/ Exception = KeyError "id").
Proof.
  apply (create_raise_writes_nothing Example.alice_gitlab Example.st_alice).
  vm_compute. reflexivity.
Defined.

Lemma create_rejects_address_up_to_case_witness :
  DB.create Example.alice_gitlab Example.st_alice = (Raise Exception, Example.st_alice).
Proof.
  apply (create_rejects_address_up_to_case Example.alice_gitlab Example.st_alice "u1"
           (created_doc "A@B.com" (fields (User.dict Example.alice))) "a@b.com").
  - apply normalized_emailsb_sound. vm_compute. reflexivity.
  - vm_compute. reflexivity.
  - vm_compute. reflexivity.
  - vm_compute. reflexivity.
  - vm_compute. reflexivity.
Defined.

Lemma create_delete_keep_lowercase_witness :
  lowercase_emails (user_docs (snd (DB.create Example.bob Example.st_alice))) /\
  lowercase_emails (user_docs (snd (DB.delete Example.bob Example.st_alice))).
Proof.
  apply create_delete_keep_lowercase.
  apply lowercase_emailsb_sound. vm_compute. reflexivity.
Defined.

Lemma create_delete_keep_emails_unique_witness :
  unique_emails (user_docs (snd (DB.create Example.bob Example.st_alice))) /\
  unique_emails (user_docs (snd (DB.delete Example.alice Example.st_both))).
Proof.
  assert (Halice : unique_emails (user_docs Example.st_alice)).
  { apply (proj1 (create_delete_keep_emails_unique Example.alice Example.empty
                    unique_emails_empty)). }
  assert (Hboth : unique_emails (user_docs Example.st_both)).
  { apply (proj1 (create_delete_keep_emails_unique Example.bob Example.st_alice Halice)). }
  split.
  - apply (proj1 (create_delete_keep_emails_unique Example.bob Example.st_alice Halice)).
  - apply (proj2 (create_delete_keep_emails_unique Example.alice Example.st_both Hboth)).
Defined.


Lemma create_then_get_by_oauth_account_witness :
  DB.get_by_oauth_account "google" "100" Example.st_alice
  = DB.get (User.id Example.alice) Example.st_alice /\
  exists kw,
    DB.get (User.id Example.alice) Example.st_alice
    = (Ok (Some (User.user_db_model kw)), Example.st_alice).
Proof.
  apply (create_then_get_by_oauth_account Example.alice Example.empty Example.alice
           Example.st_alice Example.google "google" "100").
  - vm_compute. reflexivity.
  - vm_compute. reflexivity.
  - change (Example.google ∈ [Example.google; Example.github]). left.
  - vm_compute. reflexivity.
  - vm_compute. reflexivity.
  - intros k d Hk. change (oauth_account_docs Example.empty) with (∅ : gmap string doc) in Hk.
    now rewrite lookup_empty in Hk.
  - intros b Hb Hn _.
    change (b ∈ [Example.google; Example.github]) in Hb.
    apply elem_of_cons in Hb as [->|Hb]; [reflexivity|].
    apply list_elem_of_singleton in Hb as ->. vm_compute in Hn. discriminate.
Defined.

Lemma update_missing_user_raises_witness :
  DB.update Example.alice Example.st_bob =
  (Raise NotFoundError,
   Cluster (user_docs Example.st_bob)
     match oauth_accounts (User.dict Example.alice) with
     | Some l =>
         bulk_docs (map (value_of (User.id Example.alice)) l)
                   (unlinked (User.id Example.alice) (oauth_account_docs Example.st_bob))
     | None => oauth_account_docs Example.st_bob
     end).
Proof.
  apply update_missing_user_raises.
  - vm_compute. reflexivity.
  - vm_compute. reflexivity.
Defined.

Lemma update_merges_fields_witness :
  let d := created_doc "A@B.com" (fields (User.dict Example.alice)) in
  exists st' d',
    DB.update Example.alice_moved Example.st_alice = (Ok Example.alice_moved, st') /\
    oauth_account_docs st' = oauth_account_docs Example.st_alice /\
    user_docs st' !! User.id Example.alice_moved = Some d' /\
    (forall k, k <> User.id Example.alice_moved ->
               user_docs st' !! k = user_docs Example.st_alice !! k) /\
    (forall key v, key <> "id" -> fields (User.dict Example.alice_moved) !! key = Some v ->
                   d' !! key = Some v) /\
    (forall key, fields (User.dict Example.alice_moved) !! key = None ->
                 d' !! key = d !! key) /\
    d' !! "id" = d !! "id".
Proof.
  apply (update_merges_fields Example.alice_moved Example.st_alice).
  - vm_compute. reflexivity.
  - reflexivity.
Defined.

Lemma delete_again_raises_witness :
  DB.delete Example.bob Example.st_alice = (Raise NotFoundError, Example.st_alice).
Proof.
  apply (proj1 (delete_again_raises Example.bob Example.st_alice)).
  vm_compute. reflexivity.
Defined.

Lemma create_delete_get_by_email_witness :
  DB.delete Example.alice Example.st_alice
  = (Ok tt, snd (DB.delete Example.alice Example.st_alice)) /\
  DB.get_by_email "a@B.COM" (snd (DB.delete Example.alice Example.st_alice))
  = (Ok None, snd (DB.delete Example.alice Example.st_alice)).
Proof.
  apply (create_delete_get_by_email Example.alice Example.empty Example.alice).
  - vm_compute. reflexivity.
  - vm_compute. reflexivity.
Defined.

Lemma get_by_oauth_account_no_match_witness :
  @DB.get_by_oauth_account UserDB _ "google" "200" Example.st_alice
  = (Ok None, Example.st_alice).
Proof.
  apply get_by_oauth_account_no_match.
  apply no_account_match_of_hits. vm_compute. reflexivity.
Defined.

Lemma create_keeps_other_documents_witness :
  user_docs (snd (DB.create Example.bob Example.st_alice)) !! "u1"
  = user_docs Example.st_alice !! "u1" /\
  oauth_account_docs (snd (DB.create Example.alice_gitlab Example.st_deleted)) !! "o1"
  = oauth_account_docs Example.st_deleted !! "o1".
Proof.
  split.
  - apply (proj1 (create_keeps_other_documents Example.bob Example.st_alice "u1")).
    discriminate.
  - apply (proj2 (create_keeps_other_documents
                    Example.alice_gitlab Example.st_deleted "o1")).
    change ("o1" ∉ ["o3"]). intros Hin.
    apply list_elem_of_singleton in Hin. discriminate.
Defined.

Lemma delete_keeps_other_users_witness :
  DB.get "u2" (snd (DB.delete Example.alice Example.st_both))
  = (fst (DB.get "u2" Example.st_both), snd (DB.delete Example.alice Example.st_both)).
Proof.
  apply (delete_keeps_other_users Example.alice Example.st_both "u2").
  discriminate.
Defined.

Lemma update_then_get_by_email_witness :
  DB.get_by_email (UD := UserDB) "BOB@b.com" (snd (DB.update Example.bob Example.st_both))
  = DB.get (User.id Example.bob) (snd (DB.update Example.bob Example.st_both)).
Proof.
  apply (update_then_get_by_email Example.bob Example.st_both Example.bob).
  - vm_compute. reflexivity.
  - vm_compute. reflexivity.
  - intros k d Hk Hne He.
    assert (Hin : (k, d) ∈ hits_of (with_email "bob@b.com") (user_docs Example.st_both)).
    { apply elem_of_hits_of. split; [assumption|]. now apply matches_email. }
    vm_compute in Hin. apply list_elem_of_singleton in Hin. injection Hin as -> _.
    now apply Hne.
Defined.

Lemma update_keeps_other_linked_accounts_witness :
  oauth_account_docs (snd (DB.update Example.alice Example.st_two)) !! "o3"
  = Some (document (value_of "u4" Example.gitlab)).
Proof.
  apply (update_keeps_other_linked_accounts Example.alice Example.st_two).
  - vm_compute. reflexivity.
  - vm_compute. discriminate.
  - change ("o3" ∉ ["o1"; "o2"]). intros Hin.
    apply elem_of_cons in Hin as [Hin|Hin]; [discriminate|].
    apply list_elem_of_singleton in Hin. discriminate.
Defined.

Lemma update_can_duplicate_address_witness :
  exists st',
    DB.update Example.bob_renamed Example.st_both = (Ok Example.bob_renamed, st') /\
    ~ unique_emails (user_docs st').
Proof.
  apply (update_can_duplicate_address Example.bob_renamed Example.st_both
           (created_doc "bob@b.com" (fields (User.dict Example.bob))) "u1"
           (created_doc "A@B.com" (fields (User.dict Example.alice)))).
  - vm_compute. reflexivity.
  - vm_compute. reflexivity.
  - discriminate.
  - vm_compute. reflexivity.
  - vm_compute. reflexivity.
Defined.

Lemma create_delete_keep_normalized_witness :
  normalized_emails (user_docs (snd (DB.create Example.bob Example.st_alice))) /\
  normalized_emails (user_docs (snd (DB.delete Example.alice Example.st_alice))).
Proof.
  assert (Halice : normalized_emails (user_docs Example.st_alice))
    by (apply normalized_emailsb_sound; vm_compute; reflexivity).
  split.
  - apply (proj1 (create_delete_keep_normalized Example.bob Example.st_alice Halice)).
  - apply (proj2 (create_delete_keep_normalized Example.alice Example.st_alice Halice)).
Defined.
